(** * A shallow embedding of [server.js]: the user-management HTTP service

    The file follows the source top to bottom: the request and response
    data, the Joi schema [userValidationSchema], the middleware
    [checkRole], the Mongoose calls the handlers make on the [User] model,
    and the seven routes.  The libraries the source calls (bcryptjs,
    jsonwebtoken, Joi's e-mail grammar, Mongoose's ObjectId cast) are an
    interface, [External]; what a request cannot determine by itself (the
    salt drawn by bcrypt, the clock, the ObjectId generated by
    [new User], a failure of the database layer, the process
    environment) is the record [Env]. *)

From stdpp Require Import base option list gmap strings.
From Stdlib Require Import ZArith Ascii String.

Local Open Scope Z_scope.
Set Warnings "-register-all".

(** ** Data *)

(** A JSON value, as [express.json()] leaves it in [req.body]. *)
Inductive Json : Type :=
  | JNull
  | JBool (b : bool)
  | JNum (n : Z)
  | JStr (s : string)
  | JArr (items : list Json)
  | JObj (fields : list (string * Json)).

(** A property read such as [req.body.role]: [None] is [undefined]. *)
Abbreviation JsValue := (option Json).

(** [v !== s] for a string [s] (source line 36): strict inequality, no
    coercion; only the string [s] itself is equal to [s]. *)
Definition strict_neq (v : JsValue) (s : string) : bool :=
  match v with
  | Some (JStr t) => negb (String.eqb t s)
  | _ => true
  end.

(** Truthiness of a string, as in [if (req.body.password)] (line 107). *)
Definition truthy_string (s : string) : bool :=
  negb (String.eqb s "").

Record Request : Type := mkRequest {
  params_id : string;             (* req.params.id *)
  body : gmap string Json         (* req.body *)
}.

Definition ObjectId : Type := string.

(** A document of the users collection.
    Modelled from the spec: models/user.js is not among the sources; the
    persisted record shape is [{id, name, email, password (hash), role}],
    the role is optional at creation and the store may default it, and no
    store-level unique constraint on the e-mail is assumed. *)
Record UserDoc : Type := mkUser {
  _id : ObjectId;
  name : string;
  email : string;
  password : string;
  role : option string
}.

Definition Store : Type := list UserDoc.

(** The claim set of a token and the signed token. *)
Record Claims : Type := mkClaims {
  userId : ObjectId;
  claim_role : option string;
  iat : Z;
  exp : Z
}.

Record Jwt : Type := mkJwt {
  jwt_payload : Claims;
  jwt_signature : string
}.

(** The first error of a Joi validation ([error.details[0]]). *)
Inductive ValidationError : Type :=
  | AnyRequired (key : string)      (* "key" is required *)
  | StringBase (key : string)       (* "key" must be a string *)
  | StringEmpty (key : string)      (* "key" is not allowed to be empty *)
  | StringEmail (key : string)      (* "key" must be a valid email *)
  | AnyOnly (key : string)          (* "key" must be one of [admin, user] *)
  | ObjectUnknown.                  (* a key outside the schema is not allowed *)

(** What [res.send] is given. *)
Inductive ResBody : Type :=
  | Text (s : string)
  | Details (e : ValidationError)
  | SendUser (u : UserDoc)
  | SendUsers (us : list UserDoc)
  | SendToken (token : Jwt).

Record Response : Type := mkResponse {
  status : Z;
  sent : ResBody
}.

(** How a route ends: a response was written, or the promise of the
    [async] handler was rejected outside of any [try] and the handler wrote
    nothing. *)
Inductive Outcome : Type :=
  | Sent (r : Response)
  | Rejected.

(** An awaited call either yields a value or throws. *)
Inductive Exception : Type :=
  | StoreError | CastError | DuplicateKey | IllegalArguments | SecretMissing.

Inductive Result (A : Type) : Type :=
  | Ok (a : A)
  | Throw (e : Exception).
Arguments Ok {A} a.
Arguments Throw {A} e.

(** ** The libraries and the environment *)

Class External : Type := {
  (* Joi's [string().email()] on a non-empty string *)
  is_email : string -> bool;
  (* Mongoose's cast of a route parameter to an ObjectId *)
  castObjectId : string -> option ObjectId;
  (* bcrypt.hash(s, rounds), with the salt it drew *)
  bcrypt_hash : string -> Z -> string -> string;
  (* bcrypt.compare(s, hash) on two strings *)
  bcrypt_compare : string -> string -> bool;
  (* the signature jsonwebtoken puts under a claim set *)
  hs256 : string -> Claims -> string;
  (* Modelled from the spec: the role the schema of models/user.js gives
     a document created without one ("the store may default it"). *)
  default_role : option string;
  (* what Mongoose and MongoDB make of a filter [{ email: v }] whose [v] is
     not a string (casts, query operators, a CastError) *)
  findOne_loose : JsValue -> Store -> Result (option UserDoc)
}.

(** The contract of the password hasher (spec 4.3): a hash verifies
    against its plaintext, and it is not the plaintext. *)
Class PasswordHasher `{External} : Prop := {
  compare_hash : forall s rounds salt,
    bcrypt_compare s (bcrypt_hash s rounds salt) = true;
  hash_not_plain : forall s rounds salt,
    bcrypt_hash s rounds salt <> s
}.

Inductive StoreCall : Type :=
  | CallFindOne | CallSave | CallFind | CallFindById
  | CallFindByIdAndUpdate | CallFindByIdAndDelete.

Record Env : Type := mkEnv {
  salt : string;                   (* the salt bcrypt draws in this request *)
  now : Z;                         (* the clock, in seconds *)
  new_id : ObjectId;               (* the _id [new User] generates *)
  fails : StoreCall -> bool;       (* does the database layer fail this call? *)
  JWT_SECRET : option string       (* process.env.JWT_SECRET *)
}.

(** ** userValidationSchema (lines 25-30) *)

(** The value the schema accepted: the four keys the handlers read. *)
Record Payload : Type := mkPayload {
  p_name : string;
  p_email : string;
  p_password : string;
  p_role : option string
}.

Inductive Validated : Type :=
  | Value (p : Payload)
  | Error (e : ValidationError).

Module userValidationSchema.
Section Joi.
Context `{External}.

(** [Joi.string().required()] on the key [k]. *)
Definition string_required (k : string) (v : JsValue) : ValidationError + string :=
  match v with
  | None => inl (AnyRequired k)
  | Some (JStr s) => if String.eqb s "" then inl (StringEmpty k) else inr s
  | Some _ => inl (StringBase k)
  end.

(** [Joi.string().email().required()]. *)
Definition email_required (k : string) (v : JsValue) : ValidationError + string :=
  match string_required k v with
  | inl e => inl e
  | inr s => if is_email s then inr s else inl (StringEmail k)
  end.

(** [Joi.string().valid("admin", "user").optional()]. *)
Definition role_optional (k : string) (v : JsValue) : ValidationError + option string :=
  match v with
  | None => inr None
  | Some (JStr s) =>
      if String.eqb s "admin" || String.eqb s "user" then inr (Some s)
      else inl (AnyOnly k)
  | Some _ => inl (AnyOnly k)
  end.

Definition schema_keys : gset string :=
  {[ "name"; "email"; "password"; "role" ]}.

(** [userValidationSchema.validate(b)]: the keys in the order of the
    schema, the first error only, then the keys the schema does not know. *)
Definition validate (b : gmap string Json) : Validated :=
  match string_required "name" (b !! "name") with
  | inl e => Error e
  | inr n =>
    match email_required "email" (b !! "email") with
    | inl e => Error e
    | inr m =>
      match string_required "password" (b !! "password") with
      | inl e => Error e
      | inr p =>
        match role_optional "role" (b !! "role") with
        | inl e => Error e
        | inr r =>
          if decide (dom b ⊆ schema_keys)
          then Value (mkPayload n m p r)
          else Error ObjectUnknown
        end
      end
    end
  end.

End Joi.
End userValidationSchema.

(** ** checkRole (lines 33-41) *)

(** [Some r]: the middleware answered [r] and did not call [next]. *)
Definition checkRole (required : string) (req : Request) : option Response :=
  let userRole := body req !! "role" in
  if strict_neq userRole required
  then Some (mkResponse 403 (Text "Access denied."))
  else None.

(** ** The calls on the User model *)

Module User.
Section Calls.
Context `{External}.

Definition has_id (i : ObjectId) (u : UserDoc) : bool := String.eqb (_id u) i.
Definition has_email (e : string) (u : UserDoc) : bool := String.eqb (email u) e.

(** [new User({ name, email, password, role })]. *)
Definition new (i : ObjectId) (n e p : string) (r : option string) : UserDoc :=
  mkUser i n e p (match r with Some x => Some x | None => default_role end).

(** [User.findOne({ email: v })]. *)
Definition findOne (env : Env) (v : JsValue) (st : Store) : Result (option UserDoc) :=
  if fails env CallFindOne then Throw StoreError
  else match v with
       | Some (JStr e) => Ok (List.find (has_email e) st)
       | _ => findOne_loose v st
       end.

(** [user.save()] of a new document: an insert, which the unique index
    on [_id] refuses for an [_id] already there. *)
Definition save (env : Env) (u : UserDoc) (st : Store) : Result Store :=
  if fails env CallSave then Throw StoreError
  else if existsb (has_id (_id u)) st then Throw DuplicateKey
  else Ok (st ++ [u]).

(** [User.find()]. *)
Definition find (env : Env) (st : Store) : Result (list UserDoc) :=
  if fails env CallFind then Throw StoreError else Ok st.

(** [User.findById(id)]. *)
Definition findById (env : Env) (id : string) (st : Store) : Result (option UserDoc) :=
  if fails env CallFindById then Throw StoreError
  else match castObjectId id with
       | None => Throw CastError
       | Some i => Ok (List.find (has_id i) st)
       end.

(** The fields an update document sets. *)
Definition set_fields (p : Payload) (u : UserDoc) : UserDoc :=
  mkUser (_id u) (p_name p) (p_email p) (p_password p)
         (match p_role p with Some r => Some r | None => role u end).

(** The first document with the given [_id], replaced. *)
Fixpoint update_first (i : ObjectId) (p : Payload) (st : Store) : Store :=
  match st with
  | [] => []
  | u :: rest =>
      if has_id i u then set_fields p u :: rest
      else u :: update_first i p rest
  end.

(** [User.findByIdAndUpdate(id, update, { new: true })]: the document
    after the update, or [null]. *)
Definition findByIdAndUpdate (env : Env) (id : string) (p : Payload) (st : Store)
  : Result (option UserDoc * Store) :=
  if fails env CallFindByIdAndUpdate then Throw StoreError
  else match castObjectId id with
       | None => Throw CastError
       | Some i =>
           match List.find (has_id i) st with
           | None => Ok (None, st)
           | Some u => Ok (Some (set_fields p u), update_first i p st)
           end
       end.

(** The first document with the given [_id], removed. *)
Fixpoint remove_first (i : ObjectId) (st : Store) : Store :=
  match st with
  | [] => []
  | u :: rest => if has_id i u then rest else u :: remove_first i rest
  end.

(** [User.findByIdAndDelete(id)]: the document removed, or [null]. *)
Definition findByIdAndDelete (env : Env) (id : string) (st : Store)
  : Result (option UserDoc * Store) :=
  if fails env CallFindByIdAndDelete then Throw StoreError
  else match castObjectId id with
       | None => Throw CastError
       | Some i =>
           match List.find (has_id i) st with
           | None => Ok (None, st)
           | Some u => Ok (Some u, remove_first i st)
           end
       end.

End Calls.
End User.

(** ** bcryptjs and jsonwebtoken, as the handlers call them *)

Module bcrypt.
Section Calls.
Context `{External}.

(** [bcrypt.hash(s, rounds)] on a string, with the salt of this request. *)
Definition hash (env : Env) (s : string) (rounds : Z) : string :=
  bcrypt_hash s rounds (salt env).

(** [bcrypt.compare(s, hash)]: rejects when [s] is not a string. *)
Definition compare (s : JsValue) (hash : string) : Result bool :=
  match s with
  | Some (JStr p) => Ok (bcrypt_compare p hash)
  | _ => Throw IllegalArguments
  end.

End Calls.
End bcrypt.

Module jwt.
Section Calls.
Context `{External}.

(** The time span ["1h"] in seconds. *)
Definition one_hour : Z := 60 * 60.

(** [jwt.sign({ userId, role }, secret, { expiresIn })]: the claims given,
    the issue time and the expiry; throws when the secret is falsy
    ([!secretOrPrivateKey]): undefined, or the empty string. *)
Definition sign (env : Env) (uid : ObjectId) (r : option string)
    (secret : option string) (expiresIn : Z) : Result Jwt :=
  match secret with
  | None => Throw SecretMissing
  | Some key =>
      if truthy_string key then
        let claims := mkClaims uid r (now env) (now env + expiresIn) in
        Ok (mkJwt claims (hs256 key claims))
      else Throw SecretMissing
  end.

End Calls.
End jwt.

Section Routes.
Context `{External}.

(** ** The routes *)

Definition Handler : Type := Env -> Store -> Request -> Outcome * Store.

Definition send (st : Store) (code : Z) (b : ResBody) : Outcome * Store :=
  (Sent (mkResponse code b), st).

(** [app.METHOD(path, middleware, handler)]. *)
Definition guarded (mw : Request -> option Response) (h : Handler) : Handler :=
  fun env st req =>
    match mw req with
    | Some r => (Sent r, st)
    | None => h env st req
    end.

(** GET / (lines 44-46). *)
Definition root : Handler :=
  fun env st req => send st 200 (Text "Welcome to the backend server!").

(** The handler of POST /create (lines 50-74).  The four values it
    destructures from [req.body] are the ones the schema accepted, [p];
    [findOne] and [bcrypt.hash] are awaited outside of the [try]. *)
Definition create : Handler :=
  fun env st req =>
    match userValidationSchema.validate (body req) with
    | Error e => send st 400 (Details e)
    | Value p =>
        match User.findOne env (Some (JStr (p_email p))) st with
        | Throw _ => (Rejected, st)
        | Ok (Some _) => send st 400 (Text "User already exists.")
        | Ok None =>
            let hashedPassword := bcrypt.hash env (p_password p) 10 in
            let user :=
              User.new (new_id env) (p_name p) (p_email p) hashedPassword (p_role p) in
            match User.save env user st with
            | Ok st' => send st' 201 (SendUser user)
            | Throw _ => send st 400 (Text "Error saving user.")
            end
        end
    end.

(** The handler of GET /all (lines 77-84). *)
Definition all : Handler :=
  fun env st req =>
    match User.find env st with
    | Ok users => send st 200 (SendUsers users)
    | Throw _ => send st 500 (Text "Error retrieving users.")
    end.

(** The handler of GET /byId/:id (lines 87-97). *)
Definition byId : Handler :=
  fun env st req =>
    match User.findById env (params_id req) st with
    | Ok None => send st 404 (Text "User not found.")
    | Ok (Some user) => send st 200 (SendUser user)
    | Throw _ => send st 500 (Text "Error retrieving user.")
    end.

(** The handler of PUT /update/:id (lines 100-120): [req.body], with its
    password replaced by the hash when it is truthy, is the update. *)
Definition update : Handler :=
  fun env st req =>
    match userValidationSchema.validate (body req) with
    | Error e => send st 400 (Details e)
    | Value p =>
        let p' :=
          if truthy_string (p_password p)
          then mkPayload (p_name p) (p_email p)
                         (bcrypt.hash env (p_password p) 10) (p_role p)
          else p in
        match User.findByIdAndUpdate env (params_id req) p' st with
        | Ok (None, _) => send st 404 (Text "User not found.")
        | Ok (Some updatedUser, st') => send st' 200 (SendUser updatedUser)
        | Throw _ => send st 500 (Text "Error updating user.")
        end
    end.

(** The handler of DELETE /delete/:id (lines 123-133). *)
Definition delete : Handler :=
  fun env st req =>
    match User.findByIdAndDelete env (params_id req) st with
    | Ok (None, _) => send st 404 (Text "User not found.")
    | Ok (Some _, st') => send st' 200 (Text "User deleted.")
    | Throw _ => send st 500 (Text "Error deleting user.")
    end.

(** The handler of POST /login (lines 136-159). *)
Definition login : Handler :=
  fun env st req =>
    let body_email := body req !! "email" in
    let body_password := body req !! "password" in
    match User.findOne env body_email st with
    | Throw _ => send st 500 (Text "Error logging in.")
    | Ok None => send st 400 (Text "User not found.")
    | Ok (Some user) =>
        match bcrypt.compare body_password (password user) with
        | Throw _ => send st 500 (Text "Error logging in.")
        | Ok false => send st 400 (Text "Invalid password.")
        | Ok true =>
            match jwt.sign env (_id user) (role user) (JWT_SECRET env) jwt.one_hour with
            | Throw _ => send st 500 (Text "Error logging in.")
            | Ok token => send st 200 (SendToken token)
            end
        end
    end.

(** The routes of the application. *)
Inductive Route : Type :=
  | GET_root | POST_create | GET_all | GET_byId
  | PUT_update | DELETE_delete | POST_login.

Definition app (r : Route) : Handler :=
  match r with
  | GET_root => root
  | POST_create => guarded (checkRole "admin") create
  | GET_all => all
  | GET_byId => byId
  | PUT_update => guarded (checkRole "admin") update
  | DELETE_delete => guarded (checkRole "admin") delete
  | POST_login => login
  end.

(** The status of the response, if one was written. *)
Definition status_of (o : Outcome) : option Z :=
  match o with
  | Sent r => Some (status r)
  | Rejected => None
  end.

(** The requests the server answers, one after the other (no two handlers
    overlapping), each with its route and its environment: the collection
    they leave. *)
Fixpoint run (trace : list (Route * Env * Request)) (st : Store) : Store :=
  match trace with
  | [] => st
  | (r, env, req) :: rest => run rest (snd (app r env st req))
  end.

(** What the routes write into a document: a name that is not empty, an
    e-mail the schema accepted, the hash of a password that is not empty,
    and the role "admin". *)
Definition written_by_routes (u : UserDoc) : Prop :=
  name u <> "" /\ is_email (email u) = true /\ role u = Some "admin"
  /\ exists pw s, pw <> "" /\ password u = bcrypt_hash pw 10 s.

End Routes.

(** The users collection keeps [_id] unique. *)
Definition store_wf (st : Store) : Prop := NoDup (map _id st).

(** ** A small instance of the libraries, to run the model on *)

Module Sample.

Definition contains (c : ascii) (s : string) : bool :=
  existsb (Ascii.eqb c) (list_ascii_of_string s).

Definition hex_digit (c : ascii) : bool := contains c "0123456789abcdef".

Definition libs : External := {|
  is_email := contains "@"%char;
  castObjectId := fun s =>
    if (String.length s =? 24)%nat && forallb hex_digit (list_ascii_of_string s)
    then Some s else None;
  bcrypt_hash := fun s _ salt => s +:+ "$" +:+ salt;
  bcrypt_compare := fun s h =>
    String.prefix s h && (String.length s <? String.length h)%nat;
  hs256 := fun key claims => key +:+ "." +:+ userId claims;
  default_role := Some "user";
  findOne_loose := fun _ _ => Ok None
|}.

Definition quiet : Env :=
  mkEnv "Nq3x" 1700000000 "64b7f0c2a1d3e4f5a6b7c8d9" (fun _ => false) (Some "s3cret").

(** The same request environment with one database call failing. *)
Definition failing (c : StoreCall) : Env :=
  mkEnv "Nq3x" 1700000000 "64b7f0c2a1d3e4f5a6b7c8d9"
        (fun c' => match c, c' with
                   | CallFindOne, CallFindOne | CallSave, CallSave
                   | CallFind, CallFind | CallFindById, CallFindById
                   | CallFindByIdAndUpdate, CallFindByIdAndUpdate
                   | CallFindByIdAndDelete, CallFindByIdAndDelete => true
                   | _, _ => false
                   end)
        (Some "s3cret").

Definition ann : UserDoc :=
  mkUser "64b7f0c2a1d3e4f5a6b7c8d0" "Ann" "a@x.com" "pw1$Kd9e" (Some "admin").

Definition ann_only : Store := [ann].

Definition json_body (fields : list (string * Json)) : gmap string Json :=
  list_to_map fields.

(** POST /create { name: "Ann", email: "a@x.com", password: "pw1", role: "admin" } *)
Definition create_ann : Request :=
  mkRequest "" (json_body [("name", JStr "Ann"); ("email", JStr "a@x.com");
                           ("password", JStr "pw1"); ("role", JStr "admin")]).

(** POST /create { name: "Bob", email: "b@x.com", password: "pw2", role: "admin" } *)
Definition create_bob : Request :=
  mkRequest "" (json_body [("name", JStr "Bob"); ("email", JStr "b@x.com");
                           ("password", JStr "pw2"); ("role", JStr "admin")]).

(** The same e-mail as Ann's, sent by a caller of role "user". *)
Definition create_ann_again_as_user : Request :=
  mkRequest "" (json_body [("name", JStr "Ann B"); ("email", JStr "a@x.com");
                           ("password", JStr "pw9"); ("role", JStr "user")]).

(** The same e-mail as Ann's, sent by an admin. *)
Definition create_ann_again : Request :=
  mkRequest "" (json_body [("name", JStr "Ann B"); ("email", JStr "a@x.com");
                           ("password", JStr "pw9"); ("role", JStr "admin")]).

(** PUT /update/64b7f0c2a1d3e4f5a6b7c8d0 with the whole payload. *)
Definition update_ann : Request :=
  mkRequest "64b7f0c2a1d3e4f5a6b7c8d0"
    (json_body [("name", JStr "Ann C"); ("email", JStr "ann@x.com");
                ("password", JStr "pw3"); ("role", JStr "admin")]).

(** PUT /update/64b7f0c2a1d3e4f5a6b7c8d0 { name: "Ann C", role: "admin" } *)
Definition rename_ann : Request :=
  mkRequest "64b7f0c2a1d3e4f5a6b7c8d0"
    (json_body [("name", JStr "Ann C"); ("role", JStr "admin")]).

(** An update that names an [_id] of its own. *)
Definition reid_ann : Request :=
  mkRequest "64b7f0c2a1d3e4f5a6b7c8d0"
    (json_body [("name", JStr "Ann C"); ("email", JStr "ann@x.com");
                ("password", JStr "pw3"); ("role", JStr "admin");
                ("_id", JStr "64b7f0c2a1d3e4f5a6b7c8ff")]).

(** DELETE /delete/64b7f0c2a1d3e4f5a6b7c8d0 { role: "admin" } *)
Definition delete_ann : Request :=
  mkRequest "64b7f0c2a1d3e4f5a6b7c8d0" (json_body [("role", JStr "admin")]).

(** A request with no role at all and an invalid payload. *)
Definition anonymous : Request :=
  mkRequest "64b7f0c2a1d3e4f5a6b7c8d0" (json_body [("name", JNum 7)]).

Definition get_ann : Request := mkRequest "64b7f0c2a1d3e4f5a6b7c8d0" ∅.

Definition bob : UserDoc :=
  mkUser "64b7f0c2a1d3e4f5a6b7c8d9" "Bob" "b@x.com" "pw2$Nq3x" (Some "admin").

Definition ann_and_bob : Store := [ann; bob].

(** Ann after the update [update_ann]. *)
Definition ann_updated : UserDoc :=
  mkUser "64b7f0c2a1d3e4f5a6b7c8d0" "Ann C" "ann@x.com" "pw3$Nq3x" (Some "admin").

(** An environment that lacks the signing secret. *)
Definition no_secret : Env :=
  mkEnv "Nq3x" 1700000000 "64b7f0c2a1d3e4f5a6b7c8d9" (fun _ => false) None.

(** GET /byId/64b7f0c2a1d3e4f5a6b7c8d9, Bob's id; also his delete. *)
Definition get_bob : Request := mkRequest "64b7f0c2a1d3e4f5a6b7c8d9" ∅.

Definition delete_bob : Request :=
  mkRequest "64b7f0c2a1d3e4f5a6b7c8d9" (json_body [("role", JStr "admin")]).

(** A route parameter that is no ObjectId. *)
Definition delete_nobody : Request :=
  mkRequest "42" (json_body [("role", JStr "admin")]).

Definition update_nobody : Request :=
  mkRequest "42"
    (json_body [("name", JStr "Ann C"); ("email", JStr "ann@x.com");
                ("password", JStr "pw3"); ("role", JStr "admin")]).

(** PUT /update/64b7f0c2a1d3e4f5a6b7c8d9: Bob takes Ann's e-mail. *)
Definition bob_takes_ann_email : Request :=
  mkRequest "64b7f0c2a1d3e4f5a6b7c8d9"
    (json_body [("name", JStr "Bob"); ("email", JStr "a@x.com");
                ("password", JStr "pw2"); ("role", JStr "admin")]).

(** POST /login { email: "ann@x.com", password: "pw3" } *)
Definition login_ann_updated : Request :=
  mkRequest "" (json_body [("email", JStr "ann@x.com"); ("password", JStr "pw3")]).

(** Bob once [bob_takes_ann_email] is applied, and the collection then. *)
Definition bob_as_ann : UserDoc :=
  mkUser "64b7f0c2a1d3e4f5a6b7c8d9" "Bob" "a@x.com" "pw2$Nq3x" (Some "admin").

Definition same_email : Store := [ann; bob_as_ann].

(** POST /login { email: "a@x.com", password: "pw2" } *)
Definition login_bob_as_ann : Request :=
  mkRequest "" (json_body [("email", JStr "a@x.com"); ("password", JStr "pw2")]).

(** An environment whose signing secret is the empty string. *)
Definition empty_secret : Env :=
  mkEnv "Nq3x" 1700000000 "64b7f0c2a1d3e4f5a6b7c8d9" (fun _ => false) (Some "").

(** An environment in which every call on the store fails. *)
Definition store_down : Env :=
  mkEnv "Nq3x" 1700000000 "64b7f0c2a1d3e4f5a6b7c8d9" (fun _ => true) (Some "s3cret").

(** POST /login { email: "b@x.com", password: "pw2" } *)
Definition login_bob : Request :=
  mkRequest "" (json_body [("email", JStr "b@x.com"); ("password", JStr "pw2")]).

(** POST /login { email: "a@x.com", password: 1 } *)
Definition login_ann_number : Request :=
  mkRequest "" (json_body [("email", JStr "a@x.com"); ("password", JNum 1)]).

(** A session: Ann and Bob are created, Ann is updated, Bob is deleted. *)
Definition session : list (Route * Env * Request) :=
  [ (POST_create,
     mkEnv "Kd9e" 1700000000 "64b7f0c2a1d3e4f5a6b7c8d0" (fun _ => false) (Some "s3cret"),
     create_ann);
    (POST_create, quiet, create_bob);
    (PUT_update, quiet, update_ann);
    (DELETE_delete, quiet, delete_bob) ].

(** The same session without the update. *)
Definition session_without_update : list (Route * Env * Request) :=
  [ (POST_create,
     mkEnv "Kd9e" 1700000000 "64b7f0c2a1d3e4f5a6b7c8d0" (fun _ => false) (Some "s3cret"),
     create_ann);
    (POST_create, quiet, create_bob);
    (POST_create, quiet, create_ann_again);
    (DELETE_delete, quiet, delete_bob) ].

(** POST /login { email: "a@x.com", password: "pw1" } *)
Definition login_ann : Request :=
  mkRequest "" (json_body [("email", JStr "a@x.com"); ("password", JStr "pw1")]).

End Sample.


(** * Properties *)

Section Properties.
Context `{External}.

Implicit Types (env : Env) (st : Store) (req : Request) (u : UserDoc).

(** ** The guard *)

Lemma strict_neq_false (v : JsValue) (s : string) :
  strict_neq v s = false <-> v = Some (JStr s).
Proof.
  unfold strict_neq. split.
  - destruct v as [[| | |t| |]|]; try discriminate.
    intros E. apply negb_false_iff, String.eqb_eq in E. by subst.
  - intros ->. by rewrite String.eqb_refl.
Qed.

Lemma checkRole_denies (required : string) req :
  body req !! "role" ≠ Some (JStr required) ->
  checkRole required req = Some (mkResponse 403 (Text "Access denied.")).
Proof.
  intros Hne. unfold checkRole.
  destruct (strict_neq (body req !! "role") required) eqn:E; [done|].
  by apply strict_neq_false in E.
Qed.

Lemma checkRole_allows (required : string) req :
  body req !! "role" = Some (JStr required) ->
  checkRole required req = None.
Proof.
  intros Heq. unfold checkRole.
  by rewrite (proj2 (strict_neq_false _ _) Heq).
Qed.

Lemma guarded_denies (h : Handler) env st req :
  body req !! "role" ≠ Some (JStr "admin") ->
  guarded (checkRole "admin") h env st req
  = (Sent (mkResponse 403 (Text "Access denied.")), st).
Proof. intros Hne. unfold guarded. by rewrite checkRole_denies. Qed.

Lemma guarded_allows (h : Handler) env st req :
  body req !! "role" = Some (JStr "admin") ->
  guarded (checkRole "admin") h env st req = h env st req.
Proof. intros Heq. unfold guarded. by rewrite checkRole_allows. Qed.

(** A guarded route answers either 403, with the store as it was, or as
    its handler does behind a role that is "admin". *)
Lemma guarded_cases (h : Handler) env st req :
  (body req !! "role" ≠ Some (JStr "admin")
   /\ guarded (checkRole "admin") h env st req
      = (Sent (mkResponse 403 (Text "Access denied.")), st))
  \/ (body req !! "role" = Some (JStr "admin")
      /\ guarded (checkRole "admin") h env st req = h env st req).
Proof.
  destruct (strict_neq (body req !! "role") "admin") eqn:E.
  - left. assert (body req !! "role" ≠ Some (JStr "admin")) as Hne.
    { intros Heq. apply strict_neq_false in Heq. congruence. }
    split; [done|]. by apply guarded_denies.
  - right. apply strict_neq_false in E. split; [done|]. by apply guarded_allows.
Qed.

(** Splits a goal about a guarded route into the answer of the guard,
    which closes it when nothing more is asked than an untouched store, and
    the handler behind it. *)
Ltac behind_guard h env st req :=
  destruct (guarded_cases h env st req) as [[_ ->] | [_ ->]]; [try done|].

(** ** The schema *)

Lemma string_required_inr k (v : JsValue) s :
  userValidationSchema.string_required k v = inr s -> v = Some (JStr s) /\ s ≠ "".
Proof.
  unfold userValidationSchema.string_required.
  destruct v as [[| | |t| |]|]; try discriminate.
  destruct (String.eqb t "") eqn:E; [discriminate|].
  intros [= ->]. split; [done|]. by apply String.eqb_neq.
Qed.

Lemma email_required_inr k (v : JsValue) s :
  userValidationSchema.email_required k v = inr s -> v = Some (JStr s) /\ s ≠ "" /\ is_email s = true.
Proof.
  unfold userValidationSchema.email_required.
  destruct (userValidationSchema.string_required k v) as [e|t] eqn:E; [discriminate|].
  destruct (is_email t) eqn:Em; [|discriminate].
  intros [= ->]. apply string_required_inr in E as [? ?]. done.
Qed.

Lemma role_optional_inr k (v : JsValue) r :
  userValidationSchema.role_optional k v = inr r ->
  v = JStr <$> r /\ (r = None \/ r = Some "admin" \/ r = Some "user").
Proof.
  unfold userValidationSchema.role_optional.
  destruct v as [[| | |t| |]|]; try discriminate.
  - destruct (String.eqb t "admin") eqn:Ea; simpl.
    + apply String.eqb_eq in Ea as ->. intros [= <-]. auto.
    + destruct (String.eqb t "user") eqn:Eu; [|discriminate].
      apply String.eqb_eq in Eu as ->. intros [= <-]. auto.
  - intros [= <-]. auto.
Qed.

(** What an accepted body looks like: the three strings are there and not
    empty, the role is absent or one of the two, and there is no other
    key. *)
Lemma validate_Value (b : gmap string Json) (p : Payload) :
  userValidationSchema.validate b = Value p ->
  b !! "name" = Some (JStr (p_name p)) /\ p_name p ≠ ""
  /\ b !! "email" = Some (JStr (p_email p)) /\ is_email (p_email p) = true
  /\ b !! "password" = Some (JStr (p_password p)) /\ p_password p ≠ ""
  /\ b !! "role" = JStr <$> p_role p
  /\ dom b ⊆ userValidationSchema.schema_keys.
Proof.
  unfold userValidationSchema.validate.
  destruct (userValidationSchema.string_required "name" (b !! "name")) as [?|n] eqn:En; [discriminate|].
  destruct (userValidationSchema.email_required "email" (b !! "email")) as [?|m] eqn:Em; [discriminate|].
  destruct (userValidationSchema.string_required "password" (b !! "password")) as [?|w] eqn:Ew; [discriminate|].
  destruct (userValidationSchema.role_optional "role" (b !! "role")) as [?|r] eqn:Er; [discriminate|].
  destruct (decide (dom b ⊆ userValidationSchema.schema_keys)) as [Hd|]; [|discriminate].
  intros [= <-]. simpl.
  apply string_required_inr in En as [? ?].
  apply email_required_inr in Em as (? & ? & ?).
  apply string_required_inr in Ew as [? ?].
  apply role_optional_inr in Er as [? ?].
  done.
Qed.

(** A body that lacks one of the three required keys is not accepted. *)
Lemma validate_missing (b : gmap string Json) (k : string) :
  k ∈ ["name"; "email"; "password"] -> b !! k = None ->
  exists e, userValidationSchema.validate b = Error e.
Proof.
  intros Hk Hnone.
  destruct (userValidationSchema.validate b) as [p|e] eqn:E; [|by exists e].
  apply validate_Value in E as (Hn & _ & Hm & _ & Hw & _).
  repeat (apply elem_of_cons in Hk as [->|Hk]; [congruence|]).
  by apply elem_of_nil in Hk.
Qed.

(** A key outside the schema, such as [_id], is not accepted either. *)
Lemma validate_unknown_key (b : gmap string Json) (k : string) :
  k ∉ userValidationSchema.schema_keys -> is_Some (b !! k) ->
  exists e, userValidationSchema.validate b = Error e.
Proof.
  intros Hk Hsome.
  destruct (userValidationSchema.validate b) as [p|e] eqn:E; [|by exists e].
  apply validate_Value in E as (_ & _ & _ & _ & _ & _ & _ & Hd).
  apply elem_of_dom in Hsome. set_solver.
Qed.

(** ** The collection *)

Lemma has_id_true i u : User.has_id i u = true <-> _id u = i.
Proof. unfold User.has_id. apply String.eqb_eq. Qed.

Lemma has_email_true e u : User.has_email e u = true <-> email u = e.
Proof. unfold User.has_email. apply String.eqb_eq. Qed.

Lemma find_email_Some e st u :
  List.find (User.has_email e) st = Some u -> u ∈ st /\ email u = e.
Proof.
  intros Hf. apply find_some in Hf as [Hin He].
  split; [by apply list_elem_of_In | by apply has_email_true].
Qed.

Lemma find_email_present e st u :
  u ∈ st -> email u = e -> is_Some (List.find (User.has_email e) st).
Proof.
  intros Hin He.
  destruct (List.find (User.has_email e) st) as [v|] eqn:Hf; [by exists v|].
  apply list_elem_of_In in Hin.
  pose proof (find_none _ _ Hf u Hin) as Hfalse.
  apply has_email_true in He. congruence.
Qed.

Lemma find_email_absent e st :
  (forall u, u ∈ st -> email u ≠ e) -> List.find (User.has_email e) st = None.
Proof.
  intros Hall.
  destruct (List.find (User.has_email e) st) as [v|] eqn:Hf; [|done].
  apply find_email_Some in Hf as [Hin He]. by destruct (Hall v Hin).
Qed.

Lemma find_id_Some i st u :
  List.find (User.has_id i) st = Some u -> u ∈ st /\ _id u = i.
Proof.
  intros Hf. apply find_some in Hf as [Hin He].
  split; [by apply list_elem_of_In | by apply has_id_true].
Qed.

Lemma find_id_absent i st :
  i ∉ map _id st -> List.find (User.has_id i) st = None.
Proof.
  intros Hni.
  destruct (List.find (User.has_id i) st) as [v|] eqn:Hf; [|done].
  apply find_id_Some in Hf as [Hin <-].
  destruct Hni. apply list_elem_of_fmap. by exists v.
Qed.

Lemma existsb_id_fresh i st :
  (forall u, u ∈ st -> _id u ≠ i) -> existsb (User.has_id i) st = false.
Proof.
  intros Hall. apply not_true_is_false. intros Hex.
  apply existsb_exists in Hex as (u & Hin & Hid).
  apply list_elem_of_In in Hin. apply has_id_true in Hid. by destruct (Hall u Hin).
Qed.

Lemma existsb_id_false i st :
  existsb (User.has_id i) st = false -> i ∉ map _id st.
Proof.
  intros Hex Hin. apply list_elem_of_fmap in Hin as (u & -> & Hin).
  assert (existsb (User.has_id (_id u)) st = true) as Ht; [|congruence].
  apply existsb_exists. exists u. split; [by apply list_elem_of_In|].
  by apply has_id_true.
Qed.

(** An update leaves every [_id] where it was. *)
Lemma update_first_ids i (p : Payload) st :
  map _id (User.update_first i p st) = map _id st.
Proof.
  induction st as [|u rest IH]; simpl; [done|].
  destruct (User.has_id i u); simpl; [done|]. by rewrite IH.
Qed.

(** A delete takes one document out and touches no other. *)
Lemma remove_first_split i st u :
  List.find (User.has_id i) st = Some u ->
  exists l1 l2, st = l1 ++ u :: l2 /\ User.remove_first i st = l1 ++ l2.
Proof.
  induction st as [|v rest IH]; simpl; [discriminate|].
  destruct (User.has_id i v).
  - intros [= ->]. by exists [], rest.
  - intros Hf. destruct (IH Hf) as (l1 & l2 & -> & ->).
    by exists (v :: l1), l2.
Qed.

(** With unique [_id]s, the deleted [_id] is gone. *)
Lemma find_remove_first i st :
  store_wf st -> List.find (User.has_id i) (User.remove_first i st) = None.
Proof.
  unfold store_wf. induction st as [|v rest IH]; simpl; [done|].
  intros Hnd. apply NoDup_cons in Hnd as [Hni Hnd].
  destruct (User.has_id i v) eqn:Hv; simpl.
  - apply has_id_true in Hv as <-. by apply find_id_absent.
  - rewrite Hv. by apply IH.
Qed.

Lemma remove_first_wf i st : store_wf st -> store_wf (User.remove_first i st).
Proof.
  unfold store_wf. intros Hnd.
  destruct (List.find (User.has_id i) st) as [u|] eqn:Hf.
  - destruct (remove_first_split _ _ _ Hf) as (l1 & l2 & -> & ->).
    rewrite !map_app in *. simpl in Hnd.
    apply NoDup_app in Hnd as (H1 & H2 & H3).
    apply NoDup_cons in H3 as [_ H3].
    apply NoDup_app. split_and!; [done| |done].
    intros x Hx Hx'. apply (H2 x Hx). by right.
  - assert (User.remove_first i st = st) as ->; [|done].
    clear Hnd. induction st as [|v rest IH]; simpl in *; [done|].
    destruct (User.has_id i v); [discriminate|]. by rewrite IH.
Qed.

(** ** POST /create *)

(** Behind the guard, the role the schema accepted is "admin". *)
Lemma admin_payload req (p : Payload) :
  body req !! "role" = Some (JStr "admin") ->
  userValidationSchema.validate (body req) = Value p ->
  p_role p = Some "admin".
Proof.
  intros Hrole Hv. apply validate_Value in Hv as (_ & _ & _ & _ & _ & _ & Hr & _).
  rewrite Hrole in Hr. destruct (p_role p) as [r|]; simpl in Hr; congruence.
Qed.

(** The ways the handler of POST /create ends for an accepted payload. *)
Lemma create_Value env st req (p : Payload) :
  userValidationSchema.validate (body req) = Value p ->
  create env st req =
    match User.findOne env (Some (JStr (p_email p))) st with
    | Throw _ => (Rejected, st)
    | Ok (Some _) => send st 400 (Text "User already exists.")
    | Ok None =>
        let user := User.new (new_id env) (p_name p) (p_email p)
                      (bcrypt_hash (p_password p) 10 (salt env)) (p_role p) in
        match User.save env user st with
        | Ok st' => send st' 201 (SendUser user)
        | Throw _ => send st 400 (Text "Error saving user.")
        end
    end.
Proof. intros Hv. unfold create. by rewrite Hv. Qed.

(** The handler answers 201 only after it saved the document it built. *)
Lemma create_201 env st req r st' :
  create env st req = (Sent r, st') -> status r = 201 ->
  exists p,
    userValidationSchema.validate (body req) = Value p
    /\ List.find (User.has_email (p_email p)) st = None
    /\ (new_id env ∉ map _id st)
    /\ r = mkResponse 201 (SendUser
             (User.new (new_id env) (p_name p) (p_email p)
                (bcrypt_hash (p_password p) 10 (salt env)) (p_role p)))
    /\ st' = st ++ [User.new (new_id env) (p_name p) (p_email p)
                      (bcrypt_hash (p_password p) 10 (salt env)) (p_role p)].
Proof.
  intros Hc Hs.
  destruct (userValidationSchema.validate (body req)) as [p|e] eqn:Hv.
  - rewrite (create_Value _ _ _ _ Hv) in Hc. exists p.
    unfold User.findOne, User.save, send in Hc.
    destruct (fails env CallFindOne); [discriminate|].
    destruct (List.find (User.has_email (p_email p)) st) as [v|] eqn:Hf.
    { injection Hc as <- <-. discriminate. }
    simpl in Hc. destruct (fails env CallSave).
    { injection Hc as <- <-. discriminate. }
    destruct (existsb _ st) eqn:Hex.
    { injection Hc as <- <-. discriminate. }
    injection Hc as <- <-. apply existsb_id_false in Hex. done.
  - unfold create in Hc. rewrite Hv in Hc. unfold send in Hc.
    injection Hc as <- <-. discriminate.
Qed.

(** C1: a request to POST /create, PUT /update/:id or DELETE /delete/:id
    whose body role is not exactly the string "admin" is answered 403
    "Access denied." and leaves the store as it was, whatever the rest of
    the payload is. *)
Theorem role_guard_denies (r : Route) env st req :
  r = POST_create \/ r = PUT_update \/ r = DELETE_delete ->
  body req !! "role" ≠ Some (JStr "admin") ->
  app r env st req = (Sent (mkResponse 403 (Text "Access denied.")), st).
Proof.
  intros [-> | [-> | ->]] Hne; simpl; by apply guarded_denies.
Qed.

(** C10: on POST /create and PUT /update/:id the guard runs before the
    schema: a request whose role is not "admin" and whose payload the
    schema refuses is answered 403, not the 400 of the validation. *)
Theorem guard_precedes_validation (r : Route) env st req (e : ValidationError) :
  r = POST_create \/ r = PUT_update ->
  body req !! "role" ≠ Some (JStr "admin") ->
  userValidationSchema.validate (body req) = Error e ->
  app r env st req = (Sent (mkResponse 403 (Text "Access denied.")), st)
  /\ status_of (fst (app r env st req)) ≠ Some 400.
Proof.
  intros Hr Hne _.
  assert (app r env st req = (Sent (mkResponse 403 (Text "Access denied.")), st)) as ->.
  { destruct Hr as [-> | ->]; simpl; by apply guarded_denies. }
  split; [done|]. simpl. discriminate.
Qed.

(** C9: a user created through POST /create has the role "admin": a 201
    means the document sent back was appended to the collection, and its
    role is the "admin" the guard let through. *)
Theorem created_user_is_admin env st req (r : Response) st' :
  app POST_create env st req = (Sent r, st') ->
  status r = 201 ->
  exists u, sent r = SendUser u /\ st' = st ++ [u] /\ role u = Some "admin".
Proof.
  simpl. intros Hc Hs.
  destruct (guarded_cases create env st req) as [[_ Hd] | [Hrole Ha]].
  - rewrite Hd in Hc. injection Hc as <- <-. discriminate.
  - rewrite Ha in Hc.
    destruct (create_201 _ _ _ _ _ Hc Hs) as (p & Hv & _ & _ & -> & ->).
    eexists. split_and!; [done..|].
    simpl. by rewrite (admin_payload _ _ Hrole Hv).
Qed.

(** C2, as amended: when a record with the e-mail E exists, no request to
    POST /create with the e-mail E inserts anything; and one that passes
    the guard and the schema, and whose lookup the store answers, is
    answered 400 "User already exists.", whatever its name and password. *)
Theorem duplicate_email_rejected env st req u :
  u ∈ st ->
  body req !! "email" = Some (JStr (email u)) ->
  snd (app POST_create env st req) = st
  /\ (body req !! "role" = Some (JStr "admin") ->
      (exists p, userValidationSchema.validate (body req) = Value p) ->
      fails env CallFindOne = false ->
      app POST_create env st req
      = (Sent (mkResponse 400 (Text "User already exists.")), st)).
Proof.
  intros Hin Hemail.
  assert (forall p, userValidationSchema.validate (body req) = Value p ->
            is_Some (List.find (User.has_email (p_email p)) st)) as Hfound.
  { intros p Hv. apply validate_Value in Hv as (_ & _ & Hm & _).
    rewrite Hemail in Hm. injection Hm as Hm.
    by apply (find_email_present _ _ u). }
  simpl. split.
  - behind_guard create env st req.
    destruct (userValidationSchema.validate (body req)) as [p|e] eqn:Hv.
    + rewrite (create_Value _ _ _ _ Hv). unfold User.findOne.
      destruct (Hfound p eq_refl) as [v ->].
      by destruct (fails env CallFindOne).
    + unfold create. by rewrite Hv.
  - intros Hrole [p Hv] Hok.
    rewrite (guarded_allows _ _ _ _ Hrole), (create_Value _ _ _ _ Hv).
    unfold User.findOne. rewrite Hok.
    by destruct (Hfound p Hv) as [v ->].
Qed.

(** C3: for a payload the schema accepts, sent with the role "admin",
    with an e-mail not in use and the store answering, POST /create
    persists a user whose password is the bcrypt hash of the password
    sent: it differs from the password sent, and bcrypt verifies the
    password sent against it. *)
Theorem create_stores_hash `{!PasswordHasher} env st req (p : Payload) :
  body req !! "role" = Some (JStr "admin") ->
  userValidationSchema.validate (body req) = Value p ->
  (forall v, v ∈ st -> email v ≠ p_email p) ->
  (forall v, v ∈ st -> _id v ≠ new_id env) ->
  fails env CallFindOne = false ->
  fails env CallSave = false ->
  exists u,
    app POST_create env st req = (Sent (mkResponse 201 (SendUser u)), st ++ [u])
    /\ body req !! "password" = Some (JStr (p_password p))
    /\ password u = bcrypt_hash (p_password p) 10 (salt env)
    /\ password u ≠ p_password p
    /\ bcrypt_compare (p_password p) (password u) = true.
Proof.
  intros Hrole Hv Hemail Hid Hfind Hsave. simpl.
  rewrite (guarded_allows _ _ _ _ Hrole), (create_Value _ _ _ _ Hv).
  unfold User.findOne, User.save. rewrite Hfind, Hsave.
  rewrite (find_email_absent _ _ Hemail). simpl.
  rewrite (existsb_id_fresh _ _ Hid).
  eexists. split; [reflexivity|]. simpl.
  apply validate_Value in Hv as (_ & _ & _ & _ & Hw & _).
  split_and!; [done|done|apply hash_not_plain|apply compare_hash].
Qed.

(** ** POST /login *)

(** With distinct e-mails, the lookup by e-mail finds any document that
    has the e-mail. *)
Lemma find_email_unique st u :
  NoDup (map email st) -> u ∈ st ->
  List.find (User.has_email (email u)) st = Some u.
Proof.
  induction st as [|v st IH]; simpl; intros Hnd Hin.
  - by apply elem_of_nil in Hin.
  - apply NoDup_cons in Hnd as [Hv Hnd].
    apply elem_of_cons in Hin as [-> | Hin].
    + by rewrite (proj2 (has_email_true (email v) v) eq_refl).
    + destruct (User.has_email (email u) v) eqn:Hv'; [|by apply IH].
      apply has_email_true in Hv'. destruct Hv. rewrite Hv'.
      apply list_elem_of_fmap. by exists u.
Qed.

(** C4, as amended: for an e-mail and a password that are strings, the
    store answering and the signing secret a string that is not empty,
    POST /login answers 200 exactly when the lookup by e-mail finds a
    document, which is the first of the collection with that e-mail, and
    bcrypt verifies the password against the hash of that document; the
    token then carries the [_id] and the role of that document, and
    expires one hour (3600 s) after its issue time; when no document has
    the e-mail, or the password does not verify against the first one, the
    answer is a 400 with a text, and no token.  A 200 always means that a
    user of the collection has the e-mail and a hash the password
    verifies against, and with distinct e-mails the converse holds too. *)
Theorem login_correct env st req (e pw key : string) :
  body req !! "email" = Some (JStr e) ->
  body req !! "password" = Some (JStr pw) ->
  fails env CallFindOne = false ->
  JWT_SECRET env = Some key ->
  key ≠ "" ->
  (status_of (fst (app POST_login env st req)) = Some 200
   <-> exists u, List.find (User.has_email e) st = Some u
                 /\ bcrypt_compare pw (password u) = true)
  /\ (forall u, List.find (User.has_email e) st = Some u ->
        bcrypt_compare pw (password u) = true ->
        exists token,
          app POST_login env st req = (Sent (mkResponse 200 (SendToken token)), st)
          /\ userId (jwt_payload token) = _id u
          /\ claim_role (jwt_payload token) = role u
          /\ exp (jwt_payload token) = iat (jwt_payload token) + 3600
          /\ iat (jwt_payload token) = now env)
  /\ ((List.find (User.has_email e) st = None
       \/ exists u, List.find (User.has_email e) st = Some u
                    /\ bcrypt_compare pw (password u) = false) ->
      exists msg,
        app POST_login env st req = (Sent (mkResponse 400 (Text msg)), st))
  /\ (status_of (fst (app POST_login env st req)) = Some 200 ->
      exists u, u ∈ st /\ email u = e /\ bcrypt_compare pw (password u) = true)
  /\ (NoDup (map email st) ->
      (exists u, u ∈ st /\ email u = e /\ bcrypt_compare pw (password u) = true) ->
      status_of (fst (app POST_login env st req)) = Some 200).
Proof.
  intros He Hpw Hfind Hkey Hne.
  assert (status_of (fst (app POST_login env st req)) = Some 200
          <-> exists u, List.find (User.has_email e) st = Some u
                        /\ bcrypt_compare pw (password u) = true) as Hiff.
  { simpl. unfold login, User.findOne, bcrypt.compare, jwt.sign, send.
    rewrite He, Hpw, Hfind, Hkey.
    unfold truthy_string. rewrite (proj2 (String.eqb_neq _ _) Hne). simpl.
    destruct (List.find (User.has_email e) st) as [u|] eqn:Hf.
    - destruct (bcrypt_compare pw (password u)) eqn:Hc; simpl.
      + split; [|done]. intros _. by exists u.
      + split; [discriminate|]. intros (v & [= <-] & ?). congruence.
    - simpl. split; [discriminate|]. by intros (v & ? & _). }
  split_and!.
  - exact Hiff.
  - intros u Hf Hc. simpl.
    unfold login, User.findOne, bcrypt.compare, jwt.sign, send.
    rewrite He, Hpw, Hfind, Hkey, Hf, Hc.
    unfold truthy_string. rewrite (proj2 (String.eqb_neq _ _) Hne). simpl.
    eexists. split; [reflexivity|]. by simpl.
  - intros Hcase. simpl.
    unfold login, User.findOne, bcrypt.compare, jwt.sign, send.
    rewrite He, Hpw, Hfind.
    destruct Hcase as [-> | (u & -> & ->)]; by eexists.
  - intros H200. apply Hiff in H200 as (u & Hf & Hc).
    apply find_email_Some in Hf as [Hin Hu]. by exists u.
  - intros Hnd (u & Hin & Hu & Hc). apply Hiff. exists u.
    split; [|done]. rewrite <- Hu. by apply find_email_unique.
Qed.

(** ** PUT /update/:id *)

(** The ways the handler of PUT /update/:id ends for an accepted payload:
    the password is not empty, so it is always hashed again. *)
Lemma update_Value env st req (p : Payload) :
  userValidationSchema.validate (body req) = Value p ->
  update env st req =
    match User.findByIdAndUpdate env (params_id req)
            (mkPayload (p_name p) (p_email p)
               (bcrypt_hash (p_password p) 10 (salt env)) (p_role p)) st with
    | Ok (None, _) => send st 404 (Text "User not found.")
    | Ok (Some updatedUser, st') => send st' 200 (SendUser updatedUser)
    | Throw _ => send st 500 (Text "Error updating user.")
    end.
Proof.
  intros Hv. unfold update. rewrite Hv.
  apply validate_Value in Hv as (_ & _ & _ & _ & _ & Hw & _).
  unfold truthy_string. apply String.eqb_neq in Hw. by rewrite Hw.
Qed.

(** Whatever the update document, the call leaves every [_id] in place. *)
Lemma findByIdAndUpdate_ids env id (p : Payload) st o st' :
  User.findByIdAndUpdate env id p st = Ok (o, st') ->
  map _id st' = map _id st.
Proof.
  unfold User.findByIdAndUpdate.
  destruct (fails env CallFindByIdAndUpdate); [discriminate|].
  destruct (castObjectId id) as [i|]; [|discriminate].
  destruct (List.find (User.has_id i) st).
  - intros [= _ <-]. apply update_first_ids.
  - by intros [= _ <-].
Qed.

Lemma update_ids env st req :
  map _id (snd (update env st req)) = map _id st.
Proof.
  unfold update. destruct (userValidationSchema.validate (body req)) as [p|e]; [|done].
  match goal with
  | |- context [User.findByIdAndUpdate env ?i ?q st] =>
      destruct (User.findByIdAndUpdate env i q st) as [[[v|] st']|x] eqn:Hu
  end; simpl; try done.
  by apply findByIdAndUpdate_ids in Hu.
Qed.

(** C5, as amended: behind the guard and the schema, a PUT /update/:id
    whose store write fails is answered 500 "Error updating user.", with
    the store as it was.  Of the failures of the store, only the failed
    save of POST /create is answered 400 "Error saving user."; the failed
    reads of GET /all and GET /byId/:id, the failed delete and the failed
    lookup of POST /login are answered 500; the failed lookup of POST
    /create, awaited outside of the try, gets no response of the handler.
    None of them writes. *)
Theorem store_failure_status env st req :
  (body req !! "role" = Some (JStr "admin") ->
   (exists p, userValidationSchema.validate (body req) = Value p) ->
   fails env CallFindByIdAndUpdate = true ->
   app PUT_update env st req
   = (Sent (mkResponse 500 (Text "Error updating user.")), st))
  /\ (body req !! "role" = Some (JStr "admin") ->
      forall p, userValidationSchema.validate (body req) = Value p ->
      fails env CallFindOne = false ->
      List.find (User.has_email (p_email p)) st = None ->
      fails env CallSave = true ->
      app POST_create env st req
      = (Sent (mkResponse 400 (Text "Error saving user.")), st))
  /\ (body req !! "role" = Some (JStr "admin") ->
      (exists p, userValidationSchema.validate (body req) = Value p) ->
      fails env CallFindOne = true ->
      app POST_create env st req = (Rejected, st))
  /\ (fails env CallFind = true ->
      app GET_all env st req
      = (Sent (mkResponse 500 (Text "Error retrieving users.")), st))
  /\ (fails env CallFindById = true ->
      app GET_byId env st req
      = (Sent (mkResponse 500 (Text "Error retrieving user.")), st))
  /\ (body req !! "role" = Some (JStr "admin") ->
      fails env CallFindByIdAndDelete = true ->
      app DELETE_delete env st req
      = (Sent (mkResponse 500 (Text "Error deleting user.")), st))
  /\ (fails env CallFindOne = true ->
      app POST_login env st req
      = (Sent (mkResponse 500 (Text "Error logging in.")), st)).
Proof.
  simpl. split_and!.
  - intros Hrole [p Hv] Hfail.
    rewrite (guarded_allows _ _ _ _ Hrole), (update_Value _ _ _ _ Hv).
    unfold User.findByIdAndUpdate. by rewrite Hfail.
  - intros Hrole p Hv Hfind Hnone Hfail.
    rewrite (guarded_allows _ _ _ _ Hrole), (create_Value _ _ _ _ Hv).
    unfold User.findOne, User.save. by rewrite Hfind, Hnone, Hfail.
  - intros Hrole [p Hv] Hfail.
    rewrite (guarded_allows _ _ _ _ Hrole), (create_Value _ _ _ _ Hv).
    unfold User.findOne. by rewrite Hfail.
  - intros Hfail. unfold all, User.find. by rewrite Hfail.
  - intros Hfail. unfold byId, User.findById. by rewrite Hfail.
  - intros Hrole Hfail. rewrite (guarded_allows _ _ _ _ Hrole).
    unfold delete, User.findByIdAndDelete. by rewrite Hfail.
  - intros Hfail. unfold login, User.findOne. by rewrite Hfail.
Qed.

(** C6, as amended: PUT /update/:id takes the whole payload: behind the
    guard, a body that omits one of name, email and password is answered
    400 with the error of the schema, and nothing is updated. *)
Theorem update_requires_all_fields env st req (k : string) :
  body req !! "role" = Some (JStr "admin") ->
  k ∈ ["name"; "email"; "password"] ->
  body req !! k = None ->
  exists e,
    app PUT_update env st req = (Sent (mkResponse 400 (Details e)), st).
Proof.
  intros Hrole Hk Hnone. simpl. rewrite (guarded_allows _ _ _ _ Hrole).
  destruct (validate_missing _ _ Hk Hnone) as [e He].
  exists e. unfold update. by rewrite He.
Qed.

(** ** DELETE /delete/:id and GET /byId/:id *)

(** A 200 of the delete route means the document with that [_id] was
    found and taken out. *)
Lemma delete_200 env st req r st' :
  app DELETE_delete env st req = (Sent r, st') -> status r = 200 ->
  exists i, castObjectId (params_id req) = Some i
            /\ st' = User.remove_first i st.
Proof.
  simpl. intros Hd Hs.
  destruct (guarded_cases delete env st req) as [[_ Hg] | [_ Hg]];
    rewrite Hg in Hd.
  { injection Hd as <- <-. discriminate. }
  unfold delete, User.findByIdAndDelete, send in Hd.
  destruct (fails env CallFindByIdAndDelete).
  { injection Hd as <- <-. discriminate. }
  destruct (castObjectId (params_id req)) as [i|].
  2:{ injection Hd as <- <-. discriminate. }
  exists i. split; [done|].
  destruct (List.find (User.has_id i) st).
  - by injection Hd as <- <-.
  - injection Hd as <- <-. discriminate.
Qed.

(** C7: after DELETE /delete/:id answered 200 for an id, GET /byId/:id
    for the same id answers 404 "User not found." when the store answers,
    and in no case answers 200 or sends a user. *)
Theorem deleted_then_not_found env env' st req req' (r : Response) st' :
  store_wf st ->
  app DELETE_delete env st req = (Sent r, st') ->
  status r = 200 ->
  params_id req' = params_id req ->
  (fails env' CallFindById = false ->
   app GET_byId env' st' req'
   = (Sent (mkResponse 404 (Text "User not found.")), st'))
  /\ status_of (fst (app GET_byId env' st' req')) ≠ Some 200
  /\ (forall u code, fst (app GET_byId env' st' req')
                     ≠ Sent (mkResponse code (SendUser u))).
Proof.
  intros Hwf Hd Hs Hid.
  destruct (delete_200 _ _ _ _ _ Hd Hs) as (i & Hcast & ->).
  simpl. unfold byId, User.findById. rewrite Hid, Hcast.
  rewrite (find_remove_first _ _ Hwf).
  destruct (fails env' CallFindById); simpl.
  - split_and!; [discriminate|discriminate|]. intros u code. discriminate.
  - split_and!; [done|discriminate|]. intros u code. discriminate.
Qed.

(** ** The [_id] of a record *)

(** The store after each route, against the store before it. *)
Lemma app_store (r : Route) env st req :
  snd (app r env st req) = st
  \/ (r = PUT_update /\ map _id (snd (app r env st req)) = map _id st)
  \/ (r = POST_create /\ exists u, snd (app r env st req) = st ++ [u]
                                   /\ _id u ∉ map _id st)
  \/ (r = DELETE_delete /\ exists l1 u l2,
        st = l1 ++ u :: l2 /\ snd (app r env st req) = l1 ++ l2).
Proof.
  destruct r; simpl.
  - by left.
  - behind_guard create env st req; [by left|].
    unfold create. destruct (userValidationSchema.validate (body req)) as [p|e]; [|by left].
    unfold User.findOne, User.save.
    destruct (fails env CallFindOne); [by left|].
    destruct (List.find _ st); [by left|]. simpl.
    destruct (fails env CallSave); [by left|].
    destruct (existsb _ st) eqn:Hex; [by left|].
    right; right; left. split; [done|]. eexists. split; [done|].
    by apply existsb_id_false in Hex.
  - unfold all. destruct (User.find env st); by left.
  - unfold byId. destruct (User.findById env (params_id req) st) as [[v|]|x]; by left.
  - behind_guard update env st req; [by left|].
    right; left. split; [done|]. apply update_ids.
  - behind_guard delete env st req; [by left|].
    unfold delete, User.findByIdAndDelete.
    destruct (fails env CallFindByIdAndDelete); [by left|].
    destruct (castObjectId (params_id req)) as [i|]; [|by left].
    destruct (List.find (User.has_id i) st) as [v|] eqn:Hf; [|by left].
    right; right; right. split; [done|].
    destruct (remove_first_split _ _ _ Hf) as (l1 & l2 & -> & ->).
    by exists l1, v, l2.
  - unfold login.
    destruct (User.findOne env (body req !! "email") st) as [[v|]|x]; [|by left..].
    destruct (bcrypt.compare (body req !! "password") (password v)) as [[|]|x]; [|by left..].
    destruct (jwt.sign env (_id v) (role v) (JWT_SECRET env) jwt.one_hour); by left.
Qed.

(** Every route keeps the [_id]s of the collection unique. *)
Lemma app_store_wf (r : Route) env st req :
  store_wf st -> store_wf (snd (app r env st req)).
Proof.
  intros Hwf.
  destruct (app_store r env st req)
    as [-> | [[_ Hu] | [[_ (u & -> & Hu)] | [_ (l1 & u & l2 & -> & ->)]]]].
  - done.
  - unfold store_wf. by rewrite Hu.
  - unfold store_wf in *. rewrite map_app. simpl.
    apply NoDup_app. split_and!; [done| |apply NoDup_singleton].
    intros x Hx Hx'. apply list_elem_of_singleton in Hx' as ->. done.
  - unfold store_wf in *. rewrite !map_app in *. simpl in Hwf.
    apply NoDup_app in Hwf as (H1 & H2 & H3).
    apply NoDup_cons in H3 as [_ H3].
    apply NoDup_app. split_and!; [done| |done].
    intros x Hx Hx'. apply (H2 x Hx). by right.
Qed.

(** C8: the [_id] of a record never changes.  PUT /update/:id leaves the
    [_id]s of the collection as they were, record by record, and a body
    that names an [_id] does not reach the store at all; of the other
    routes, POST /create only appends a record, DELETE /delete/:id only
    takes one out, and the rest leave the collection alone. *)
Theorem id_immutable (r : Route) env st req :
  map _id (snd (app PUT_update env st req)) = map _id st
  /\ (is_Some (body req !! "_id") -> snd (app PUT_update env st req) = st)
  /\ (map _id (snd (app r env st req)) = map _id st
      \/ (r = POST_create /\ exists u, snd (app r env st req) = st ++ [u])
      \/ (r = DELETE_delete /\ exists l1 u l2,
            st = l1 ++ u :: l2 /\ snd (app r env st req) = l1 ++ l2)).
Proof.
  split_and!.
  - simpl. behind_guard update env st req. apply update_ids.
  - intros Hsome. simpl.
    behind_guard update env st req.
    destruct (validate_unknown_key (body req) "_id") as [e He]; [|done|].
    { apply (bool_decide_unpack _). by vm_compute. }
    unfold update. by rewrite He.
  - destruct (app_store r env st req)
      as [-> | [[_ Hu] | [[Hr (u & Hu & _)] | Hd]]].
    + by left.
    + by left.
    + right; left. split; [done|]. by exists u.
    + right; right. done.
Qed.

End Properties.

(** * The model at work *)

(** The sample hasher keeps the contract of [PasswordHasher]. *)

Lemma sample_prefix (s t : string) : String.prefix s (s +:+ t) = true.
Proof.
  induction s as [|a s IH]; simpl; [by destruct t|].
  by destruct (ascii_dec a a).
Qed.

Lemma sample_length (s t : string) :
  String.length (s +:+ t) = (String.length s + String.length t)%nat.
Proof. induction s as [|a s IH]; simpl; [done|]. by rewrite IH. Qed.

Lemma sample_hasher : @PasswordHasher Sample.libs.
Proof.
  split; simpl.
  - intros s _ salt. rewrite sample_prefix, sample_length. simpl.
    apply Nat.ltb_lt. lia.
  - intros s _ salt Heq. apply (f_equal String.length) in Heq.
    rewrite sample_length in Heq. simpl in Heq. lia.
Qed.

(** The example of the spec: Ann is created, then logs in. *)
Example create_then_login :
  exists u st token,
    @app Sample.libs POST_create Sample.quiet [] Sample.create_ann
    = (Sent (mkResponse 201 (SendUser u)), st)
    /\ name u = "Ann" /\ email u = "a@x.com"
    /\ String.eqb (password u) "pw1" = false
    /\ @app Sample.libs POST_login Sample.quiet st Sample.login_ann
       = (Sent (mkResponse 200 (SendToken token)), st).
Proof. do 3 eexists. split_and!; by vm_compute. Qed.

Lemma role_guard_denies_witness :
  body Sample.create_ann_again_as_user !! "role" = Some (JStr "user")
  /\ @app Sample.libs POST_create Sample.quiet Sample.ann_only
          Sample.create_ann_again_as_user
     = (Sent (mkResponse 403 (Text "Access denied.")), Sample.ann_only).
Proof.
  split; [by vm_compute|].
  apply (@role_guard_denies Sample.libs); [by left|].
  vm_compute. discriminate.
Defined.

Lemma guard_precedes_validation_witness :
  @userValidationSchema.validate Sample.libs (body Sample.anonymous) = Error (StringBase "name")
  /\ @app Sample.libs PUT_update Sample.quiet Sample.ann_only Sample.anonymous
     = (Sent (mkResponse 403 (Text "Access denied.")), Sample.ann_only).
Proof.
  split; [by vm_compute|].
  apply (@guard_precedes_validation Sample.libs PUT_update Sample.quiet
           Sample.ann_only Sample.anonymous (StringBase "name")).
  - by right.
  - vm_compute. discriminate.
  - by vm_compute.
Defined.

Lemma created_user_is_admin_witness :
  exists u,
    SendUser (mkUser "64b7f0c2a1d3e4f5a6b7c8d9" "Bob" "b@x.com" "pw2$Nq3x"
                     (Some "admin")) = SendUser u
    /\ Sample.ann_only
       ++ [mkUser "64b7f0c2a1d3e4f5a6b7c8d9" "Bob" "b@x.com" "pw2$Nq3x" (Some "admin")]
       = Sample.ann_only ++ [u]
    /\ role u = Some "admin".
Proof.
  apply (@created_user_is_admin Sample.libs Sample.quiet Sample.ann_only
           Sample.create_bob
           (mkResponse 201 (SendUser (mkUser "64b7f0c2a1d3e4f5a6b7c8d9" "Bob"
                                             "b@x.com" "pw2$Nq3x" (Some "admin"))))
           (Sample.ann_only ++ [mkUser "64b7f0c2a1d3e4f5a6b7c8d9" "Bob" "b@x.com"
                                       "pw2$Nq3x" (Some "admin")])).
  - by vm_compute.
  - reflexivity.
Defined.

(** Ann's e-mail is taken, and yet the second create with it is answered
    403, not 400 "User already exists.": the caller's role is "user". *)
Lemma duplicate_email_as_user :
  List.find (User.has_email "a@x.com") Sample.ann_only = Some Sample.ann
  /\ body Sample.create_ann_again_as_user !! "email" = Some (JStr "a@x.com")
  /\ @app Sample.libs POST_create Sample.quiet Sample.ann_only
          Sample.create_ann_again_as_user
     = (Sent (mkResponse 403 (Text "Access denied.")), Sample.ann_only).
Proof. split_and!; by vm_compute. Qed.

Lemma duplicate_email_rejected_witness :
  @app Sample.libs POST_create Sample.quiet Sample.ann_only Sample.create_ann_again
  = (Sent (mkResponse 400 (Text "User already exists.")), Sample.ann_only).
Proof.
  apply (@duplicate_email_rejected Sample.libs Sample.quiet Sample.ann_only
           Sample.create_ann_again Sample.ann).
  - apply list_elem_of_here.
  - by vm_compute.
  - by vm_compute.
  - eexists. by vm_compute.
  - reflexivity.
Defined.

Lemma create_stores_hash_witness :
  exists u,
    @app Sample.libs POST_create Sample.quiet Sample.ann_only Sample.create_bob
    = (Sent (mkResponse 201 (SendUser u)), Sample.ann_only ++ [u])
    /\ body Sample.create_bob !! "password" = Some (JStr "pw2")
    /\ password u = "pw2$Nq3x"
    /\ password u ≠ "pw2"
    /\ @bcrypt_compare Sample.libs "pw2" (password u) = true.
Proof.
  apply (@create_stores_hash Sample.libs sample_hasher Sample.quiet Sample.ann_only
           Sample.create_bob (mkPayload "Bob" "b@x.com" "pw2" (Some "admin"))).
  - by vm_compute.
  - by vm_compute.
  - intros v Hv. apply list_elem_of_singleton in Hv as ->. simpl. discriminate.
  - intros v Hv. apply list_elem_of_singleton in Hv as ->. simpl. discriminate.
  - reflexivity.
  - reflexivity.
Defined.

(** Two refutations.  After Bob took Ann's e-mail through an update, a
    user with the e-mail "a@x.com" exists whose hash verifies "pw2", and
    the login is answered 400: the lookup found Ann.  And without a
    signing secret the only user's own password is answered 500. *)
Lemma login_overlooks_second_record :
  (snd (@app Sample.libs PUT_update Sample.quiet Sample.ann_and_bob
             Sample.bob_takes_ann_email) = Sample.same_email
   /\ Sample.same_email = [Sample.ann; Sample.bob_as_ann]
   /\ email Sample.bob_as_ann = "a@x.com"
   /\ @bcrypt_compare Sample.libs "pw2" (password Sample.bob_as_ann) = true
   /\ @app Sample.libs POST_login Sample.quiet Sample.same_email
           Sample.login_bob_as_ann
      = (Sent (mkResponse 400 (Text "Invalid password.")), Sample.same_email))
  /\ (email Sample.ann = "a@x.com"
      /\ @bcrypt_compare Sample.libs "pw1" (password Sample.ann) = true
      /\ @app Sample.libs POST_login Sample.no_secret Sample.ann_only
              Sample.login_ann
         = (Sent (mkResponse 500 (Text "Error logging in.")), Sample.ann_only)).
Proof. split_and!; by vm_compute. Qed.

Lemma login_correct_witness :
  exists token,
    @app Sample.libs POST_login Sample.quiet Sample.ann_only Sample.login_ann
    = (Sent (mkResponse 200 (SendToken token)), Sample.ann_only)
    /\ userId (jwt_payload token) = _id Sample.ann
    /\ claim_role (jwt_payload token) = role Sample.ann
    /\ exp (jwt_payload token) = iat (jwt_payload token) + 3600
    /\ iat (jwt_payload token) = now Sample.quiet.
Proof.
  unshelve epose proof
    (@login_correct Sample.libs Sample.quiet Sample.ann_only Sample.login_ann
       "a@x.com" "pw1" "s3cret" _ _ _ _ _) as (_ & L & _);
    [by vm_compute..|].
  apply L; by vm_compute.
Defined.

(** The write of an update fails in the database layer, and the answer is
    500, not 400. *)
Lemma update_store_failure_is_500 :
  fails (Sample.failing CallFindByIdAndUpdate) CallFindByIdAndUpdate = true
  /\ @app Sample.libs PUT_update (Sample.failing CallFindByIdAndUpdate)
          Sample.ann_only Sample.update_ann
     = (Sent (mkResponse 500 (Text "Error updating user.")), Sample.ann_only).
Proof. split; by vm_compute. Qed.

Lemma store_failure_status_witness :
  @app Sample.libs PUT_update Sample.store_down Sample.ann_only Sample.update_ann
  = (Sent (mkResponse 500 (Text "Error updating user.")), Sample.ann_only)
  /\ @app Sample.libs POST_create (Sample.failing CallSave) Sample.ann_only
          Sample.create_bob
     = (Sent (mkResponse 400 (Text "Error saving user.")), Sample.ann_only)
  /\ @app Sample.libs POST_create Sample.store_down Sample.ann_only Sample.create_bob
     = (Rejected, Sample.ann_only)
  /\ @app Sample.libs GET_all Sample.store_down Sample.ann_only Sample.update_ann
     = (Sent (mkResponse 500 (Text "Error retrieving users.")), Sample.ann_only)
  /\ @app Sample.libs GET_byId Sample.store_down Sample.ann_only Sample.update_ann
     = (Sent (mkResponse 500 (Text "Error retrieving user.")), Sample.ann_only)
  /\ @app Sample.libs DELETE_delete Sample.store_down Sample.ann_only Sample.update_ann
     = (Sent (mkResponse 500 (Text "Error deleting user.")), Sample.ann_only)
  /\ @app Sample.libs POST_login Sample.store_down Sample.ann_only Sample.update_ann
     = (Sent (mkResponse 500 (Text "Error logging in.")), Sample.ann_only).
Proof.
  pose proof (@store_failure_status Sample.libs Sample.store_down Sample.ann_only
                Sample.update_ann) as (L1 & _ & _ & L4 & L5 & L6 & L7).
  pose proof (@store_failure_status Sample.libs (Sample.failing CallSave)
                Sample.ann_only Sample.create_bob) as (_ & L2 & _).
  pose proof (@store_failure_status Sample.libs Sample.store_down Sample.ann_only
                Sample.create_bob) as (_ & _ & L3 & _).
  split_and!.
  - apply L1; [by vm_compute| |reflexivity]. eexists. by vm_compute.
  - apply (L2 eq_refl (mkPayload "Bob" "b@x.com" "pw2" (Some "admin")));
      by vm_compute.
  - apply L3; [by vm_compute| |reflexivity]. eexists. by vm_compute.
  - by apply L4.
  - by apply L5.
  - apply L6; by vm_compute.
  - by apply L7.
Defined.

(** An admin sends only a new name, and the update is refused: the schema
    asks for the e-mail. *)
Lemma partial_update_is_refused :
  body Sample.rename_ann !! "role" = Some (JStr "admin")
  /\ body Sample.rename_ann !! "email" = None
  /\ @app Sample.libs PUT_update Sample.quiet Sample.ann_only Sample.rename_ann
     = (Sent (mkResponse 400 (Details (AnyRequired "email"))), Sample.ann_only).
Proof. split_and!; by vm_compute. Qed.

Lemma update_requires_all_fields_witness :
  exists e,
    @app Sample.libs PUT_update Sample.quiet Sample.ann_only Sample.rename_ann
    = (Sent (mkResponse 400 (Details e)), Sample.ann_only).
Proof.
  apply (@update_requires_all_fields Sample.libs Sample.quiet Sample.ann_only
           Sample.rename_ann "password").
  - by vm_compute.
  - apply list_elem_of_further, list_elem_of_further, list_elem_of_here.
  - by vm_compute.
Defined.

Lemma deleted_then_not_found_witness :
  @app Sample.libs DELETE_delete Sample.quiet Sample.ann_only Sample.delete_ann
  = (Sent (mkResponse 200 (Text "User deleted.")), [])
  /\ @app Sample.libs GET_byId Sample.quiet [] Sample.get_ann
     = (Sent (mkResponse 404 (Text "User not found.")), []).
Proof.
  split; [by vm_compute|].
  unshelve epose proof
    (@deleted_then_not_found Sample.libs Sample.quiet Sample.quiet Sample.ann_only
       Sample.delete_ann Sample.get_ann
       (mkResponse 200 (Text "User deleted.")) [] _ _ _ _) as (L & _).
  - apply NoDup_singleton.
  - by vm_compute.
  - reflexivity.
  - reflexivity.
  - apply L. reflexivity.
Defined.

Lemma id_immutable_witness :
  body Sample.reid_ann !! "_id" = Some (JStr "64b7f0c2a1d3e4f5a6b7c8ff")
  /\ snd (@app Sample.libs PUT_update Sample.quiet Sample.ann_only Sample.reid_ann)
     = Sample.ann_only.
Proof.
  split; [by vm_compute|].
  apply (proj1 (proj2 (@id_immutable Sample.libs PUT_update Sample.quiet
                         Sample.ann_only Sample.reid_ann))).
  eexists. by vm_compute.
Defined.

(** * More of the server *)

Section Coverage.
Context `{External}.

Implicit Types (env : Env) (st : Store) (req : Request) (u : UserDoc).

(** The case analysis of a guarded route, as in the section before. *)
Ltac past_guard h env st req :=
  destruct (guarded_cases h env st req) as [[_ ->] | [_ ->]]; [try done|].

(** ** The schema and the guard, characterised *)

(** The schema accepts a body exactly when name, email and password are
    strings that are not empty, the email has the form of one, the role is
    absent or one of "admin" and "user", and there is no other key; the
    value is then the content of the four keys. *)
Theorem validate_accepts_iff (b : gmap string Json) (p : Payload) :
  userValidationSchema.validate b = Value p <->
  b !! "name" = Some (JStr (p_name p)) /\ p_name p ≠ ""
  /\ b !! "email" = Some (JStr (p_email p)) /\ p_email p ≠ ""
  /\ is_email (p_email p) = true
  /\ b !! "password" = Some (JStr (p_password p)) /\ p_password p ≠ ""
  /\ b !! "role" = JStr <$> p_role p
  /\ (p_role p = None \/ p_role p = Some "admin" \/ p_role p = Some "user")
  /\ dom b ⊆ userValidationSchema.schema_keys.
Proof.
  split.
  - unfold userValidationSchema.validate.
    destruct (userValidationSchema.string_required "name" (b !! "name"))
      as [?|n] eqn:En; [discriminate|].
    destruct (userValidationSchema.email_required "email" (b !! "email"))
      as [?|m] eqn:Em; [discriminate|].
    destruct (userValidationSchema.string_required "password" (b !! "password"))
      as [?|w] eqn:Ew; [discriminate|].
    destruct (userValidationSchema.role_optional "role" (b !! "role"))
      as [?|r] eqn:Er; [discriminate|].
    destruct (decide (dom b ⊆ userValidationSchema.schema_keys)); [|discriminate].
    intros [= <-]. simpl.
    apply string_required_inr in En as [? ?].
    apply email_required_inr in Em as (? & ? & ?).
    apply string_required_inr in Ew as [? ?].
    apply role_optional_inr in Er as [? ?].
    done.
  - intros (Hn & Hn' & Hm & Hm' & Hm'' & Hw & Hw' & Hr & Hr' & Hd).
    apply String.eqb_neq in Hn', Hm', Hw'.
    unfold userValidationSchema.validate, userValidationSchema.email_required,
      userValidationSchema.string_required, userValidationSchema.role_optional.
    rewrite Hn, Hm, Hw, Hr, Hn', Hm', Hw', Hm''.
    destruct p as [n m w r]; simpl in *.
    destruct Hr' as [-> | [-> | ->]]; simpl;
      (destruct (decide (dom b ⊆ userValidationSchema.schema_keys)); [done|done]).
Qed.

(** The guard lets a request through exactly when the role in its body is
    the required string; it looks at nothing else, so any request with
    the role written into its body passes. *)
Theorem guard_trusts_body (required : string) req :
  (checkRole required req = None <-> body req !! "role" = Some (JStr required))
  /\ checkRole required
       (mkRequest (params_id req) (<["role" := JStr required]> (body req))) = None.
Proof.
  split.
  - unfold checkRole.
    destruct (strict_neq (body req !! "role") required) eqn:E.
    + split; [discriminate|]. intros Heq%strict_neq_false. congruence.
    + split; [|done]. intros _. by apply strict_neq_false.
  - apply checkRole_allows. simpl. apply lookup_insert_eq.
Qed.

(** ** What a route may answer, and when the collection changes *)

(** A request that is not answered 201 by POST /create or 200 by PUT
    /update/:id or DELETE /delete/:id leaves the collection as it was: the
    reading routes, the login and every refused or failed request write
    nothing. *)
Theorem store_changes_only_on_success (r : Route) env st req :
  snd (app r env st req) = st
  \/ (r = POST_create /\ status_of (fst (app r env st req)) = Some 201)
  \/ (r = PUT_update /\ status_of (fst (app r env st req)) = Some 200)
  \/ (r = DELETE_delete /\ status_of (fst (app r env st req)) = Some 200).
Proof.
  destruct r; simpl.
  - by left.
  - past_guard create env st req; [by left|].
    unfold create. destruct (userValidationSchema.validate (body req)) as [p|e]; [|by left].
    destruct (User.findOne env (Some (JStr (p_email p))) st) as [[v|]|x]; [by left| |by left].
    simpl. destruct (User.save env _ st); [|by left].
    right; left. done.
  - unfold all. destruct (User.find env st); by left.
  - unfold byId. destruct (User.findById env (params_id req) st) as [[v|]|x]; by left.
  - past_guard update env st req; [by left|].
    unfold update. destruct (userValidationSchema.validate (body req)) as [p|e]; [|by left].
    match goal with
    | |- context [User.findByIdAndUpdate env ?i ?q st] =>
        destruct (User.findByIdAndUpdate env i q st) as [[[v|] st']|x]
    end; [|by left..].
    right; right; left. done.
  - past_guard delete env st req; [by left|].
    unfold delete.
    destruct (User.findByIdAndDelete env (params_id req) st) as [[[v|] st']|x];
      [|by left..].
    right; right; right. done.
  - unfold login.
    destruct (User.findOne env (body req !! "email") st) as [[v|]|x]; [|by left..].
    destruct (bcrypt.compare (body req !! "password") (password v)) as [[|]|x];
      [|by left..].
    destruct (jwt.sign env (_id v) (role v) (JWT_SECRET env) jwt.one_hour); by left.
Qed.

(** The status codes of each route.  Only POST /create can end without a
    response of its handler, and only when its e-mail lookup fails. *)
Theorem status_range (r : Route) env st req :
  match r with
  | GET_root => status_of (fst (app r env st req)) = Some 200
  | POST_create =>
      (fst (app r env st req) = Rejected /\ fails env CallFindOne = true)
      \/ exists c, status_of (fst (app r env st req)) = Some c /\ c ∈ [201; 400; 403]
  | GET_all =>
      exists c, status_of (fst (app r env st req)) = Some c /\ c ∈ [200; 500]
  | GET_byId =>
      exists c, status_of (fst (app r env st req)) = Some c /\ c ∈ [200; 404; 500]
  | PUT_update =>
      exists c, status_of (fst (app r env st req)) = Some c
                /\ c ∈ [200; 400; 403; 404; 500]
  | DELETE_delete =>
      exists c, status_of (fst (app r env st req)) = Some c /\ c ∈ [200; 403; 404; 500]
  | POST_login =>
      exists c, status_of (fst (app r env st req)) = Some c /\ c ∈ [200; 400; 500]
  end.
Proof.
  assert (forall (c : Z) (l : list Z), bool_decide (c ∈ l) = true -> c ∈ l) as In_dec.
  { intros c l. apply bool_decide_eq_true_1. }
  destruct r; simpl.
  - done.
  - destruct (guarded_cases create env st req) as [[_ ->] | [_ ->]].
    { right. eexists. split; [done|]. by apply In_dec. }
    unfold create. destruct (userValidationSchema.validate (body req)) as [p|e].
    2:{ right. eexists. split; [done|]. by apply In_dec. }
    unfold User.findOne. destruct (fails env CallFindOne); [by left|].
    destruct (List.find _ st); simpl.
    { right. eexists. split; [done|]. by apply In_dec. }
    destruct (User.save env _ st); right; eexists; (split; [done|]); by apply In_dec.
  - unfold all. destruct (User.find env st);
      eexists; (split; [done|]); by apply In_dec.
  - unfold byId. destruct (User.findById env (params_id req) st) as [[v|]|x];
      eexists; (split; [done|]); by apply In_dec.
  - destruct (guarded_cases update env st req) as [[_ ->] | [_ ->]].
    { eexists. split; [done|]. by apply In_dec. }
    unfold update. destruct (userValidationSchema.validate (body req)) as [p|e].
    2:{ eexists. split; [done|]. by apply In_dec. }
    match goal with
    | |- context [User.findByIdAndUpdate env ?i ?q st] =>
        destruct (User.findByIdAndUpdate env i q st) as [[[v|] st']|x]
    end; eexists; (split; [done|]); by apply In_dec.
  - destruct (guarded_cases delete env st req) as [[_ ->] | [_ ->]].
    { eexists. split; [done|]. by apply In_dec. }
    unfold delete.
    destruct (User.findByIdAndDelete env (params_id req) st) as [[[v|] st']|x];
      eexists; (split; [done|]); by apply In_dec.
  - unfold login.
    destruct (User.findOne env (body req !! "email") st) as [[v|]|x];
      [|eexists; (split; [done|]); by apply In_dec..].
    destruct (bcrypt.compare (body req !! "password") (password v)) as [[|]|x];
      [|eexists; (split; [done|]); by apply In_dec..].
    destruct (jwt.sign env (_id v) (role v) (JWT_SECRET env) jwt.one_hour);
      eexists; (split; [done|]); by apply In_dec.
Qed.

(** ** Finding, replacing and removing a document *)

Lemma find_id_split i (l1 : Store) u l2 :
  (forall v, v ∈ l1 -> _id v ≠ i) -> _id u = i ->
  List.find (User.has_id i) (l1 ++ u :: l2) = Some u.
Proof.
  intros Hl1 Hu. induction l1 as [|v l1 IH]; simpl.
  - by rewrite (proj2 (has_id_true i u) Hu).
  - destruct (User.has_id i v) eqn:Hv.
    + apply has_id_true in Hv. destruct (Hl1 v); [apply list_elem_of_here|done].
    + apply IH. intros w Hw. apply Hl1. by apply list_elem_of_further.
Qed.

Lemma update_first_split i (p : Payload) (l1 : Store) u l2 :
  (forall v, v ∈ l1 -> _id v ≠ i) -> _id u = i ->
  User.update_first i p (l1 ++ u :: l2) = l1 ++ User.set_fields p u :: l2.
Proof.
  intros Hl1 Hu. induction l1 as [|v l1 IH]; simpl.
  - by rewrite (proj2 (has_id_true i u) Hu).
  - destruct (User.has_id i v) eqn:Hv.
    + apply has_id_true in Hv. destruct (Hl1 v); [apply list_elem_of_here|done].
    + f_equal. apply IH. intros w Hw. apply Hl1. by apply list_elem_of_further.
Qed.

Lemma remove_first_at i (l1 : Store) u l2 :
  (forall v, v ∈ l1 -> _id v ≠ i) -> _id u = i ->
  User.remove_first i (l1 ++ u :: l2) = l1 ++ l2.
Proof.
  intros Hl1 Hu. induction l1 as [|v l1 IH]; simpl.
  - by rewrite (proj2 (has_id_true i u) Hu).
  - destruct (User.has_id i v) eqn:Hv.
    + apply has_id_true in Hv. destruct (Hl1 v); [apply list_elem_of_here|done].
    + f_equal. apply IH. intros w Hw. apply Hl1. by apply list_elem_of_further.
Qed.

Lemma find_id_appended st u :
  _id u ∉ map _id st -> List.find (User.has_id (_id u)) (st ++ [u]) = Some u.
Proof.
  intros Hni. apply find_id_split; [|done].
  intros v Hv Heq. apply Hni. apply list_elem_of_fmap. by exists v.
Qed.

Lemma find_email_appended e st u :
  List.find (User.has_email e) st = None -> email u = e ->
  List.find (User.has_email e) (st ++ [u]) = Some u.
Proof.
  intros Hnone He. induction st as [|v st IH]; simpl in *.
  - by rewrite (proj2 (has_email_true e u) He).
  - destruct (User.has_email e v); [discriminate|]. by apply IH.
Qed.

Lemma find_update_first i (p : Payload) st u :
  List.find (User.has_id i) st = Some u ->
  List.find (User.has_id i) (User.update_first i p st) = Some (User.set_fields p u).
Proof.
  induction st as [|v st IH]; simpl; [discriminate|].
  destruct (User.has_id i v) eqn:Hv; simpl.
  - intros [= ->]. unfold User.has_id in *. simpl. by rewrite Hv.
  - rewrite Hv. apply IH.
Qed.

Lemma update_first_keeps_others i (p : Payload) st w :
  w ∈ st -> _id w ≠ i -> w ∈ User.update_first i p st.
Proof.
  intros Hin Hne. induction st as [|v st IH]; simpl; [done|].
  apply elem_of_cons in Hin as [-> | Hin].
  - destruct (User.has_id i v) eqn:Hv; [|apply list_elem_of_here].
    by apply has_id_true in Hv.
  - destruct (User.has_id i v); apply list_elem_of_further; [done|by apply IH].
Qed.

Lemma update_first_Forall (P : UserDoc -> Prop) i (p : Payload) st :
  (forall u, P u -> P (User.set_fields p u)) ->
  Forall P st -> Forall P (User.update_first i p st).
Proof.
  intros Hset. induction 1 as [|v st Hv Hst IH]; simpl; [constructor|].
  destruct (User.has_id i v); constructor; auto.
Qed.

Lemma update_first_elem i (p : Payload) st w :
  w ∈ User.update_first i p st ->
  w ∈ st \/ exists v, v ∈ st /\ w = User.set_fields p v.
Proof.
  induction st as [|v st IH]; simpl; [by left|].
  destruct (User.has_id i v).
  - intros [-> | Hin]%elem_of_cons.
    + right. exists v. split; [apply list_elem_of_here|done].
    + left. by apply list_elem_of_further.
  - intros [-> | Hin]%elem_of_cons; [left; apply list_elem_of_here|].
    destruct (IH Hin) as [? | (x & ? & ->)].
    + left. by apply list_elem_of_further.
    + right. exists x. split; [by apply list_elem_of_further|done].
Qed.

(** What a 201 of POST /create tells. *)
Lemma route_create_201 env st req u st' :
  app POST_create env st req = (Sent (mkResponse 201 (SendUser u)), st') ->
  exists p,
    body req !! "role" = Some (JStr "admin")
    /\ userValidationSchema.validate (body req) = Value p
    /\ List.find (User.has_email (p_email p)) st = None
    /\ (_id u ∉ map _id st)
    /\ u = mkUser (new_id env) (p_name p) (p_email p)
             (bcrypt_hash (p_password p) 10 (salt env)) (Some "admin")
    /\ st' = st ++ [u].
Proof.
  simpl. intros Hc.
  destruct (guarded_cases create env st req) as [[_ Hd] | [Hrole Ha]].
  { rewrite Hd in Hc. discriminate. }
  rewrite Ha in Hc.
  destruct (create_201 _ _ _ _ _ Hc eq_refl) as (p & Hv & Hf & Hid & [= ->] & ->).
  exists p. unfold User.new. rewrite (admin_payload _ _ Hrole Hv). done.
Qed.

(** ** Sequences of requests *)

Lemma create_written env st req :
  Forall written_by_routes st ->
  Forall written_by_routes (snd (app POST_create env st req)).
Proof.
  intros Hst. simpl.
  destruct (guarded_cases create env st req) as [[_ ->] | [Hrole ->]]; [done|].
  destruct (userValidationSchema.validate (body req)) as [p|e] eqn:Hv.
  2:{ unfold create. by rewrite Hv. }
  rewrite (create_Value _ _ _ _ Hv). unfold User.findOne, User.save.
  destruct (fails env CallFindOne); [done|].
  destruct (List.find _ st); [done|]. simpl.
  destruct (fails env CallSave); [done|].
  destruct (existsb _ st); [done|]. simpl.
  apply Forall_app. split; [done|]. apply Forall_singleton.
  pose proof (admin_payload _ _ Hrole Hv) as Hr.
  apply validate_Value in Hv as (_ & Hn & _ & Hm & _ & Hw & _).
  unfold written_by_routes, User.new. simpl. rewrite Hr.
  split_and!; [done..|]. by exists (p_password p), (salt env).
Qed.

Lemma update_written env st req :
  Forall written_by_routes st ->
  Forall written_by_routes (snd (app PUT_update env st req)).
Proof.
  intros Hst. simpl.
  destruct (guarded_cases update env st req) as [[_ ->] | [Hrole ->]]; [done|].
  destruct (userValidationSchema.validate (body req)) as [p|e] eqn:Hv.
  2:{ unfold update. by rewrite Hv. }
  rewrite (update_Value _ _ _ _ Hv). unfold User.findByIdAndUpdate.
  destruct (fails env CallFindByIdAndUpdate); [done|].
  destruct (castObjectId (params_id req)) as [i|]; [|done].
  destruct (List.find (User.has_id i) st); [|done]. simpl.
  apply update_first_Forall; [|done].
  intros w _.
  pose proof (admin_payload _ _ Hrole Hv) as Hr.
  apply validate_Value in Hv as (_ & Hn & _ & Hm & _ & Hw & _).
  unfold written_by_routes, User.set_fields. simpl. rewrite Hr.
  split_and!; [done..|]. by exists (p_password p), (salt env).
Qed.

Lemma app_written (r : Route) env st req :
  Forall written_by_routes st -> Forall written_by_routes (snd (app r env st req)).
Proof.
  intros Hst.
  destruct r; [|by apply create_written| | |by apply update_written| |];
    match goal with
    | |- Forall _ (snd (app ?r _ _ _)) =>
        destruct (app_store r env st req)
          as [-> | [[? _] | [[? _] | [_ (l1 & u & l2 & -> & ->)]]]];
          [done|discriminate|discriminate|]
    end;
    apply Forall_app in Hst as [H1 H2]; apply Forall_cons in H2 as [_ H2];
    by apply Forall_app.
Qed.

(** However many requests are served, one after the other, the [_id]s of
    the collection stay unique. *)
Theorem run_store_wf (trace : list (Route * Env * Request)) st :
  store_wf st -> store_wf (run trace st).
Proof.
  revert st. induction trace as [|[[r env] req] rest IH]; intros st Hwf; simpl.
  - done.
  - apply IH. by apply app_store_wf.
Qed.

Lemma run_written_by_routes (trace : list (Route * Env * Request)) st :
  Forall written_by_routes st -> Forall written_by_routes (run trace st).
Proof.
  revert st. induction trace as [|[[r env] req] rest IH]; intros st Hst; simpl.
  - done.
  - apply IH. by apply app_written.
Qed.

(** Nothing but what the routes write gets into the collection: starting
    from documents that have a name, a valid e-mail, the role "admin" and
    for a password the [bcrypt.hash] of cost 10 of a string that is not
    empty, every sequence of requests served one after the other leaves
    only such documents: none with the role "user" or without a role, and,
    bcrypt keeping its contract, each password field verifies against the
    string it is the hash of and is not that string. *)
Theorem run_written `{!PasswordHasher} (trace : list (Route * Env * Request)) st :
  Forall written_by_routes st ->
  Forall (fun u =>
            written_by_routes u
            /\ exists pw s, pw ≠ "" /\ password u = bcrypt_hash pw 10 s
                           /\ bcrypt_compare pw (password u) = true
                           /\ password u ≠ pw)
         (run trace st).
Proof.
  intros Hst. apply (run_written_by_routes trace) in Hst.
  eapply Forall_impl; [exact Hst|].
  intros u Hu. split; [done|].
  destruct Hu as (_ & _ & _ & pw & s & Hpw & Hhash).
  exists pw, s. rewrite Hhash.
  split_and!; [done|done|apply compare_hash|apply hash_not_plain].
Qed.

(** What a request writes is the hash of the password it sent: a
    document that is in the collection after a request and was not there
    before has the name, the e-mail and the role "admin" of the body of
    that request, and for a password the [bcrypt.hash] of cost 10, with
    the salt of that request, of the password in that body. *)
Theorem written_is_hash_of_sent (r : Route) env st req u :
  u ∈ snd (app r env st req) ->
  u ∉ st ->
  exists pw,
    body req !! "password" = Some (JStr pw)
    /\ pw ≠ ""
    /\ password u = bcrypt_hash pw 10 (salt env)
    /\ body req !! "name" = Some (JStr (name u))
    /\ body req !! "email" = Some (JStr (email u))
    /\ body req !! "role" = Some (JStr "admin")
    /\ role u = Some "admin".
Proof.
  intros Hin Hnew.
  assert (forall p, body req !! "role" = Some (JStr "admin") ->
            userValidationSchema.validate (body req) = Value p ->
            name u = p_name p -> email u = p_email p ->
            password u = bcrypt_hash (p_password p) 10 (salt env) ->
            role u = Some "admin" ->
            exists pw,
              body req !! "password" = Some (JStr pw)
              /\ pw ≠ ""
              /\ password u = bcrypt_hash pw 10 (salt env)
              /\ body req !! "name" = Some (JStr (name u))
              /\ body req !! "email" = Some (JStr (email u))
              /\ body req !! "role" = Some (JStr "admin")
              /\ role u = Some "admin") as Hgoal.
  { intros p Hrole Hv Hn Hm Hw Hr.
    apply validate_Value in Hv as (Hbn & _ & Hbm & _ & Hbw & Hwne & _).
    exists (p_password p). rewrite Hn, Hm. done. }
  destruct r; simpl in Hin; try done.
  - destruct (guarded_cases create env st req) as [[_ Hg] | [Hrole Hg]];
      rewrite Hg in Hin; [done|].
    destruct (userValidationSchema.validate (body req)) as [p|e] eqn:Hv.
    2:{ unfold create in Hin. by rewrite Hv in Hin. }
    rewrite (create_Value _ _ _ _ Hv) in Hin. unfold User.findOne, User.save in Hin.
    destruct (fails env CallFindOne); [done|].
    destruct (List.find _ st); [done|]. simpl in Hin.
    destruct (fails env CallSave); [done|].
    destruct (existsb _ st); [done|]. simpl in Hin.
    apply elem_of_app in Hin as [Hin | Hin]; [done|].
    apply list_elem_of_singleton in Hin as ->.
    apply (Hgoal p); try done.
    unfold User.new. simpl. by rewrite (admin_payload _ _ Hrole Hv).
  - unfold all in Hin. by destruct (User.find env st).
  - unfold byId in Hin.
    by destruct (User.findById env (params_id req) st) as [[v|]|x].
  - destruct (guarded_cases update env st req) as [[_ Hg] | [Hrole Hg]];
      rewrite Hg in Hin; [done|].
    destruct (userValidationSchema.validate (body req)) as [p|e] eqn:Hv.
    2:{ unfold update in Hin. by rewrite Hv in Hin. }
    rewrite (update_Value _ _ _ _ Hv) in Hin. unfold User.findByIdAndUpdate in Hin.
    destruct (fails env CallFindByIdAndUpdate); [done|].
    destruct (castObjectId (params_id req)) as [i|]; [|done].
    destruct (List.find (User.has_id i) st); [|done]. simpl in Hin.
    apply update_first_elem in Hin as [Hin | (v & _ & ->)]; [done|].
    apply (Hgoal p); try done.
    unfold User.set_fields. simpl. by rewrite (admin_payload _ _ Hrole Hv).
  - destruct (guarded_cases delete env st req) as [[_ Hg] | [_ Hg]];
      rewrite Hg in Hin; [done|].
    unfold delete, User.findByIdAndDelete in Hin.
    destruct (fails env CallFindByIdAndDelete); [done|].
    destruct (castObjectId (params_id req)) as [i|]; [|done].
    destruct (List.find (User.has_id i) st) as [v|] eqn:Hf; [|done].
    simpl in Hin. destruct (remove_first_split _ _ _ Hf) as (l1 & l2 & -> & Hrm).
    rewrite Hrm in Hin. destruct Hnew.
    apply elem_of_app in Hin as [Hin | Hin]; apply elem_of_app; [by left|].
    right. by apply list_elem_of_further.
  - unfold login in Hin.
    destruct (User.findOne env (body req !! "email") st) as [[v|]|x]; [|done..].
    destruct (bcrypt.compare (body req !! "password") (password v)) as [[|]|x];
      [|done..].
    by destruct (jwt.sign env (_id v) (role v) (JWT_SECRET env) jwt.one_hour).
Qed.

(** ** After a create *)

(** GET /byId/:id with the [_id] of the user a POST /create sent back
    answers 200 with that same document: the name and the e-mail of the
    request, the role "admin", and for a password its hash. *)
Theorem byId_after_create env env' st req req' u st' :
  app POST_create env st req = (Sent (mkResponse 201 (SendUser u)), st') ->
  params_id req' = _id u ->
  castObjectId (_id u) = Some (_id u) ->
  fails env' CallFindById = false ->
  app GET_byId env' st' req' = (Sent (mkResponse 200 (SendUser u)), st')
  /\ body req !! "name" = Some (JStr (name u))
  /\ body req !! "email" = Some (JStr (email u))
  /\ role u = Some "admin"
  /\ exists pw, body req !! "password" = Some (JStr pw)
                /\ password u = bcrypt_hash pw 10 (salt env).
Proof.
  intros Hc Hid Hcast Hok.
  destruct (route_create_201 _ _ _ _ _ Hc) as (p & _ & Hv & _ & Hfresh & Hu & ->).
  apply validate_Value in Hv as (Hn & _ & Hm & _ & Hw & _).
  split.
  - simpl. unfold byId, User.findById. rewrite Hok, Hid, Hcast.
    by rewrite (find_id_appended _ _ Hfresh).
  - rewrite Hu. simpl. split_and!; [done..|]. by exists (p_password p).
Qed.

(** GET /all after a POST /create that answered 201 lists the collection
    as it was, then the new user, each document as stored, its password
    hash included. *)
Theorem all_after_create env env' st req req' u st' :
  app POST_create env st req = (Sent (mkResponse 201 (SendUser u)), st') ->
  fails env' CallFind = false ->
  app GET_all env' st' req'
  = (Sent (mkResponse 200 (SendUsers (st ++ [u]))), st ++ [u]).
Proof.
  intros Hc Hok.
  destruct (route_create_201 _ _ _ _ _ Hc) as (p & _ & _ & _ & _ & _ & ->).
  simpl. unfold all, User.find. by rewrite Hok.
Qed.

(** The user a POST /create answered 201 for can log in with the e-mail
    and the password of that request, the signing secret being a string
    that is not empty: POST /login answers 200 with a token for the new
    [_id] and the role "admin", valid for one hour. *)
Theorem login_after_create `{!PasswordHasher} env env' st req req' u st' key :
  app POST_create env st req = (Sent (mkResponse 201 (SendUser u)), st') ->
  body req' !! "email" = body req !! "email" ->
  body req' !! "password" = body req !! "password" ->
  fails env' CallFindOne = false ->
  JWT_SECRET env' = Some key ->
  key ≠ "" ->
  exists token,
    app POST_login env' st' req' = (Sent (mkResponse 200 (SendToken token)), st')
    /\ userId (jwt_payload token) = _id u
    /\ claim_role (jwt_payload token) = Some "admin"
    /\ iat (jwt_payload token) = now env'
    /\ exp (jwt_payload token) = now env' + 3600.
Proof.
  intros Hc Hemail Hpw Hok Hkey Hne.
  destruct (route_create_201 _ _ _ _ _ Hc) as (p & _ & Hv & Hnone & _ & Hu & ->).
  apply validate_Value in Hv as (_ & _ & Hm & _ & Hw & _).
  simpl. unfold login, User.findOne, bcrypt.compare, jwt.sign, send, truthy_string.
  rewrite Hemail, Hpw, Hm, Hw, Hok, Hkey, (proj2 (String.eqb_neq _ _) Hne).
  rewrite (find_email_appended (p_email p) st u Hnone); [|by rewrite Hu].
  assert (bcrypt_compare (p_password p) (password u) = true) as ->.
  { rewrite Hu. simpl. apply compare_hash. }
  eexists. split; [reflexivity|]. rewrite Hu. done.
Qed.

(** ** PUT /update/:id that succeeds *)

(** What a 200 of PUT /update/:id tells. *)
Lemma route_update_200 env st req u' st' :
  app PUT_update env st req = (Sent (mkResponse 200 (SendUser u')), st') ->
  exists p i u,
    body req !! "role" = Some (JStr "admin")
    /\ userValidationSchema.validate (body req) = Value p
    /\ castObjectId (params_id req) = Some i
    /\ List.find (User.has_id i) st = Some u
    /\ u' = mkUser (_id u) (p_name p) (p_email p)
              (bcrypt_hash (p_password p) 10 (salt env)) (Some "admin")
    /\ st' = User.update_first i
               (mkPayload (p_name p) (p_email p)
                  (bcrypt_hash (p_password p) 10 (salt env)) (p_role p)) st.
Proof.
  simpl. intros Hu.
  destruct (guarded_cases update env st req) as [[_ Hd] | [Hrole Ha]].
  { rewrite Hd in Hu. discriminate. }
  rewrite Ha in Hu.
  destruct (userValidationSchema.validate (body req)) as [p|e] eqn:Hv.
  2:{ unfold update in Hu. rewrite Hv in Hu. discriminate. }
  rewrite (update_Value _ _ _ _ Hv) in Hu.
  unfold User.findByIdAndUpdate, send in Hu.
  destruct (fails env CallFindByIdAndUpdate); [discriminate|].
  destruct (castObjectId (params_id req)) as [i|]; [|discriminate].
  destruct (List.find (User.has_id i) st) as [u|] eqn:Hf; [|discriminate].
  injection Hu as <- <-. exists p, i, u.
  unfold User.set_fields. simpl. rewrite (admin_payload _ _ Hrole Hv). done.
Qed.

(** Behind the guard and the schema, PUT /update/:id of a document that
    is there replaces it where it stands and touches no other: the [_id]
    stays, name and e-mail are those of the body, the password is the hash
    of the one sent, and the role becomes "admin" whatever it was. *)
Theorem update_replaces_in_place env (l1 l2 : Store) req (p : Payload) i u :
  body req !! "role" = Some (JStr "admin") ->
  userValidationSchema.validate (body req) = Value p ->
  castObjectId (params_id req) = Some i ->
  fails env CallFindByIdAndUpdate = false ->
  _id u = i ->
  (forall v, v ∈ l1 -> _id v ≠ i) ->
  app PUT_update env (l1 ++ u :: l2) req
  = (Sent (mkResponse 200 (SendUser
       (mkUser i (p_name p) (p_email p)
          (bcrypt_hash (p_password p) 10 (salt env)) (Some "admin")))),
     l1 ++ mkUser i (p_name p) (p_email p)
             (bcrypt_hash (p_password p) 10 (salt env)) (Some "admin") :: l2).
Proof.
  intros Hrole Hv Hcast Hok Hu Hl1. simpl.
  rewrite (guarded_allows _ _ _ _ Hrole), (update_Value _ _ _ _ Hv).
  unfold User.findByIdAndUpdate. rewrite Hok, Hcast.
  rewrite (find_id_split _ _ _ _ Hl1 Hu), (update_first_split _ _ _ _ _ Hl1 Hu).
  unfold User.set_fields, send. simpl.
  by rewrite (admin_payload _ _ Hrole Hv), Hu.
Qed.

(** GET /byId/:id after a PUT /update/:id that answered 200, for the same
    id, answers 200 with the updated document: the name and the e-mail of
    the update, the role "admin", the hash of its password. *)
Theorem byId_after_update env env' st req req' u' st' :
  app PUT_update env st req = (Sent (mkResponse 200 (SendUser u')), st') ->
  params_id req' = params_id req ->
  fails env' CallFindById = false ->
  app GET_byId env' st' req' = (Sent (mkResponse 200 (SendUser u')), st')
  /\ body req !! "name" = Some (JStr (name u'))
  /\ body req !! "email" = Some (JStr (email u'))
  /\ role u' = Some "admin"
  /\ exists pw, body req !! "password" = Some (JStr pw)
                /\ password u' = bcrypt_hash pw 10 (salt env).
Proof.
  intros Hu Hid Hok.
  destruct (route_update_200 _ _ _ _ _ Hu)
    as (p & i & u & Hrole & Hv & Hcast & Hf & Hu' & ->).
  split.
  - simpl. unfold byId, User.findById. rewrite Hok, Hid, Hcast.
    rewrite (find_update_first _ _ _ _ Hf). unfold User.set_fields, send. simpl.
    by rewrite (admin_payload _ _ Hrole Hv), Hu'.
  - apply validate_Value in Hv as (Hn & _ & Hm & _ & Hw & _).
    rewrite Hu'. simpl. split_and!; [done..|]. by exists (p_password p).
Qed.

(** PUT /update/:id does not look whether the e-mail is in use: when
    another document has the e-mail of the body, the update still answers
    200, and the collection then holds two documents with one e-mail. *)
Theorem update_ignores_email_in_use env st req (p : Payload) i u w :
  body req !! "role" = Some (JStr "admin") ->
  userValidationSchema.validate (body req) = Value p ->
  castObjectId (params_id req) = Some i ->
  fails env CallFindByIdAndUpdate = false ->
  List.find (User.has_id i) st = Some u ->
  w ∈ st -> _id w ≠ i -> email w = p_email p ->
  exists u',
    fst (app PUT_update env st req) = Sent (mkResponse 200 (SendUser u'))
    /\ u' ∈ snd (app PUT_update env st req)
    /\ w ∈ snd (app PUT_update env st req)
    /\ email u' = email w
    /\ _id u' ≠ _id w.
Proof.
  intros Hrole Hv Hcast Hok Hf Hw Hne Hemail. simpl.
  rewrite (guarded_allows _ _ _ _ Hrole), (update_Value _ _ _ _ Hv).
  unfold User.findByIdAndUpdate. rewrite Hok, Hcast, Hf. simpl.
  eexists. split; [reflexivity|].
  split_and!.
  - eapply find_id_Some, find_update_first, Hf.
  - by apply update_first_keeps_others.
  - by simpl.
  - simpl. apply find_id_Some in Hf as [_ Hid]. congruence.
Qed.

(** ** The route parameter *)

(** A route parameter that is no ObjectId makes the Mongoose call throw,
    and the three routes that take one answer 500, not 404, with the
    collection untouched (update and delete behind the guard, update
    behind the schema too). *)
Theorem invalid_id_is_500 env st req :
  castObjectId (params_id req) = None ->
  app GET_byId env st req
  = (Sent (mkResponse 500 (Text "Error retrieving user.")), st)
  /\ (body req !! "role" = Some (JStr "admin") ->
      app DELETE_delete env st req
      = (Sent (mkResponse 500 (Text "Error deleting user.")), st))
  /\ (body req !! "role" = Some (JStr "admin") ->
      (exists p, userValidationSchema.validate (body req) = Value p) ->
      app PUT_update env st req
      = (Sent (mkResponse 500 (Text "Error updating user.")), st)).
Proof.
  intros Hcast. simpl. split_and!.
  - unfold byId, User.findById. rewrite Hcast.
    by destruct (fails env CallFindById).
  - intros Hrole. rewrite (guarded_allows _ _ _ _ Hrole).
    unfold delete, User.findByIdAndDelete. rewrite Hcast.
    by destruct (fails env CallFindByIdAndDelete).
  - intros Hrole [p Hv].
    rewrite (guarded_allows _ _ _ _ Hrole), (update_Value _ _ _ _ Hv).
    unfold User.findByIdAndUpdate. rewrite Hcast.
    by destruct (fails env CallFindByIdAndUpdate).
Qed.

(** For an ObjectId no document has, the three routes answer 404 "User
    not found." when the store answers, and write nothing. *)
Theorem absent_id_is_404 env st req i :
  castObjectId (params_id req) = Some i ->
  i ∉ map _id st ->
  (fails env CallFindById = false ->
   app GET_byId env st req = (Sent (mkResponse 404 (Text "User not found.")), st))
  /\ (body req !! "role" = Some (JStr "admin") ->
      fails env CallFindByIdAndDelete = false ->
      app DELETE_delete env st req
      = (Sent (mkResponse 404 (Text "User not found.")), st))
  /\ (body req !! "role" = Some (JStr "admin") ->
      (exists p, userValidationSchema.validate (body req) = Value p) ->
      fails env CallFindByIdAndUpdate = false ->
      app PUT_update env st req
      = (Sent (mkResponse 404 (Text "User not found.")), st)).
Proof.
  intros Hcast Hni. pose proof (find_id_absent _ _ Hni) as Hf.
  simpl. split_and!.
  - intros Hok. unfold byId, User.findById. by rewrite Hok, Hcast, Hf.
  - intros Hrole Hok. rewrite (guarded_allows _ _ _ _ Hrole).
    unfold delete, User.findByIdAndDelete. by rewrite Hok, Hcast, Hf.
  - intros Hrole [p Hv] Hok.
    rewrite (guarded_allows _ _ _ _ Hrole), (update_Value _ _ _ _ Hv).
    unfold User.findByIdAndUpdate. by rewrite Hok, Hcast, Hf.
Qed.

(** ** DELETE /delete/:id that succeeds *)

(** Behind the guard, DELETE /delete/:id of a document that is there is
    answered 200 "User deleted." and takes out that document and no
    other; the body needs nothing but the role. *)
Theorem delete_removes_one env (l1 l2 : Store) req i u :
  body req !! "role" = Some (JStr "admin") ->
  castObjectId (params_id req) = Some i ->
  fails env CallFindByIdAndDelete = false ->
  _id u = i ->
  (forall v, v ∈ l1 -> _id v ≠ i) ->
  app DELETE_delete env (l1 ++ u :: l2) req
  = (Sent (mkResponse 200 (Text "User deleted.")), l1 ++ l2).
Proof.
  intros Hrole Hcast Hok Hu Hl1. simpl.
  rewrite (guarded_allows _ _ _ _ Hrole).
  unfold delete, User.findByIdAndDelete. rewrite Hok, Hcast.
  by rewrite (find_id_split _ _ _ _ Hl1 Hu), (remove_first_at _ _ _ _ Hl1 Hu).
Qed.

(** Once DELETE /delete/:id answered 200 for an id, a second delete and an
    update of the same id are answered 404, and the collection stays as
    the first delete left it. *)
Theorem gone_after_delete env env' st req req' (r : Response) st' :
  store_wf st ->
  app DELETE_delete env st req = (Sent r, st') ->
  status r = 200 ->
  params_id req' = params_id req ->
  body req' !! "role" = Some (JStr "admin") ->
  (fails env' CallFindByIdAndDelete = false ->
   app DELETE_delete env' st' req'
   = (Sent (mkResponse 404 (Text "User not found.")), st'))
  /\ ((exists p, userValidationSchema.validate (body req') = Value p) ->
      fails env' CallFindByIdAndUpdate = false ->
      app PUT_update env' st' req'
      = (Sent (mkResponse 404 (Text "User not found.")), st')).
Proof.
  intros Hwf Hd Hs Hid Hrole.
  destruct (delete_200 _ _ _ _ _ Hd Hs) as (i & Hcast & ->).
  pose proof (find_remove_first i st Hwf) as Hf.
  simpl. rewrite !(guarded_allows _ _ _ _ Hrole). split.
  - intros Hok. unfold delete, User.findByIdAndDelete.
    by rewrite Hok, Hid, Hcast, Hf.
  - intros [p Hv] Hok. rewrite (update_Value _ _ _ _ Hv).
    unfold User.findByIdAndUpdate. by rewrite Hok, Hid, Hcast, Hf.
Qed.

(** ** POST /login *)

(** A 200 of POST /login is never sent without a verified password: the
    lookup returned a user, the password of the body is a string that
    bcrypt accepts against the stored hash, the secret is set and not
    empty, and the token is the one signed for that user's [_id] and role, issued now and
    expiring 3600 seconds later. *)
Theorem token_only_if_verified env st req (r : Response) :
  fst (app POST_login env st req) = Sent r ->
  status r = 200 ->
  exists u pw key,
    User.findOne env (body req !! "email") st = Ok (Some u)
    /\ body req !! "password" = Some (JStr pw)
    /\ bcrypt_compare pw (password u) = true
    /\ JWT_SECRET env = Some key
    /\ key ≠ ""
    /\ sent r = SendToken
         (mkJwt (mkClaims (_id u) (role u) (now env) (now env + 3600))
            (hs256 key (mkClaims (_id u) (role u) (now env) (now env + 3600)))).
Proof.
  simpl. unfold login, bcrypt.compare, jwt.sign, send. intros Hl Hs.
  destruct (User.findOne env (body req !! "email") st) as [[u|]|x];
    [|injection Hl as <-; discriminate..].
  destruct (body req !! "password") as [[| | |pw| |]|];
    try (injection Hl as <-; discriminate).
  destruct (bcrypt_compare pw (password u)) eqn:Hc;
    [|injection Hl as <-; discriminate].
  destruct (JWT_SECRET env) as [key|]; [|injection Hl as <-; discriminate].
  unfold truthy_string in Hl.
  destruct (String.eqb key "") eqn:Hk; simpl in Hl;
    [injection Hl as <-; discriminate|].
  apply String.eqb_neq in Hk.
  injection Hl as <-. by exists u, pw, key.
Qed.

(** The 500s of POST /login besides a failed lookup: for a user that was
    found, a password that is not a string makes bcrypt throw, and a
    matching password without a signing secret, or with an empty one,
    makes jwt.sign throw; both are answered 500 "Error logging in.", not
    400. *)
Theorem login_throws_500 env st req u :
  User.findOne env (body req !! "email") st = Ok (Some u) ->
  ((forall pw, body req !! "password" ≠ Some (JStr pw)) ->
   app POST_login env st req = (Sent (mkResponse 500 (Text "Error logging in.")), st))
  /\ (forall pw, body req !! "password" = Some (JStr pw) ->
        bcrypt_compare pw (password u) = true ->
        JWT_SECRET env = None \/ JWT_SECRET env = Some "" ->
        app POST_login env st req
        = (Sent (mkResponse 500 (Text "Error logging in.")), st)).
Proof.
  intros Hf. simpl. unfold login, bcrypt.compare, jwt.sign, send. rewrite Hf.
  split.
  - intros Hpw. destruct (body req !! "password") as [[| | |pw| |]|]; try done.
    by destruct (Hpw pw).
  - intros pw -> -> [-> | ->]; done.
Qed.

(** When the e-mail lookup itself fails, POST /login answers 500, inside
    its try; the handler of POST /create, which awaits the lookup outside
    of its try, sends nothing: its promise is rejected. *)
Theorem lookup_failure env st req :
  fails env CallFindOne = true ->
  app POST_login env st req = (Sent (mkResponse 500 (Text "Error logging in.")), st)
  /\ (body req !! "role" = Some (JStr "admin") ->
      (exists p, userValidationSchema.validate (body req) = Value p) ->
      app POST_create env st req = (Rejected, st)).
Proof.
  intros Hfail. simpl. split.
  - unfold login, User.findOne. by rewrite Hfail.
  - intros Hrole [p Hv].
    rewrite (guarded_allows _ _ _ _ Hrole), (create_Value _ _ _ _ Hv).
    unfold User.findOne. by rewrite Hfail.
Qed.

(** ** More on the order of the checks and on the e-mails *)

(** Behind the guard, a payload the schema refuses is answered 400 with
    the error of the schema by POST /create and PUT /update/:id before
    any call on the store: whether the store would fail changes nothing. *)
Theorem validation_precedes_store env st req (e : ValidationError) :
  body req !! "role" = Some (JStr "admin") ->
  userValidationSchema.validate (body req) = Error e ->
  app POST_create env st req = (Sent (mkResponse 400 (Details e)), st)
  /\ app PUT_update env st req = (Sent (mkResponse 400 (Details e)), st).
Proof.
  intros Hrole Hv. simpl. rewrite !(guarded_allows _ _ _ _ Hrole).
  unfold create, update. by rewrite Hv.
Qed.

(** After a PUT /update/:id that answered 200, the e-mail and the
    password of that update log in, provided the updated document is the
    first of the collection with its e-mail and the signing secret is a
    string that is not empty: POST /login answers 200 with a token for its
    [_id] and the role "admin". *)
Theorem login_after_update `{!PasswordHasher} env env' st req req' u' st' key :
  app PUT_update env st req = (Sent (mkResponse 200 (SendUser u')), st') ->
  body req' !! "email" = body req !! "email" ->
  body req' !! "password" = body req !! "password" ->
  List.find (User.has_email (email u')) st' = Some u' ->
  fails env' CallFindOne = false ->
  JWT_SECRET env' = Some key ->
  key ≠ "" ->
  exists token,
    app POST_login env' st' req' = (Sent (mkResponse 200 (SendToken token)), st')
    /\ userId (jwt_payload token) = _id u'
    /\ claim_role (jwt_payload token) = Some "admin"
    /\ exp (jwt_payload token) = now env' + 3600.
Proof.
  intros Hu Hemail Hpw Hfirst Hok Hkey Hne.
  destruct (route_update_200 _ _ _ _ _ Hu)
    as (p & i & u & _ & Hv & _ & _ & Hu' & _).
  apply validate_Value in Hv as (_ & _ & Hm & _ & Hw & _).
  assert (email u' = p_email p) as He by (by rewrite Hu').
  simpl. unfold login, User.findOne, bcrypt.compare, jwt.sign, send, truthy_string.
  rewrite Hemail, Hpw, Hm, Hw, Hok, Hkey, <- He, Hfirst,
    (proj2 (String.eqb_neq _ _) Hne).
  assert (bcrypt_compare (p_password p) (password u') = true) as ->.
  { rewrite Hu'. simpl. apply compare_hash. }
  eexists. split; [reflexivity|]. rewrite Hu'. done.
Qed.

Lemma find_email_None e st :
  List.find (User.has_email e) st = None -> e ∉ map email st.
Proof.
  intros Hf Hin. apply list_elem_of_fmap in Hin as (u & -> & Hin).
  destruct (find_email_present (email u) st u Hin eq_refl) as [v Hv]. congruence.
Qed.

Lemma emails_unique_step (r : Route) env st req :
  r ≠ PUT_update ->
  NoDup (map email st) ->
  NoDup (map email (snd (app r env st req))).
Proof.
  intros Hr Hnd.
  destruct r; [|shelve| | |done| |];
    match goal with
    | |- NoDup (map email (snd (app ?r _ _ _))) =>
        destruct (app_store r env st req)
          as [-> | [[? _] | [[? _] | [_ (l1 & u & l2 & -> & ->)]]]];
          [done|discriminate|discriminate|]
    end;
    rewrite !map_app in *; simpl in Hnd;
    apply NoDup_app in Hnd as (H1 & H2 & H3);
    apply NoDup_cons in H3 as [_ H3];
    (apply NoDup_app; split_and!; [done| |done]);
    intros x Hx Hx'; apply (H2 x Hx); by right.
  Unshelve.
  simpl. destruct (guarded_cases create env st req) as [[_ ->] | [_ ->]]; [done|].
  destruct (userValidationSchema.validate (body req)) as [p|e] eqn:Hv.
  2:{ unfold create. by rewrite Hv. }
  rewrite (create_Value _ _ _ _ Hv). unfold User.findOne, User.save.
  destruct (fails env CallFindOne); [done|].
  destruct (List.find _ st) eqn:Hf; [done|]. simpl.
  destruct (fails env CallSave); [done|].
  destruct (existsb _ st); [done|]. simpl.
  rewrite map_app. simpl. apply NoDup_app. split_and!; [done| |apply NoDup_singleton].
  intros x Hx Hx'. apply list_elem_of_singleton in Hx' as ->.
  by apply (find_email_None _ _ Hf).
Qed.

(** Served one after the other, with no PUT /update/:id among them, the
    requests keep the e-mails of the collection distinct: POST /create
    inserts only an e-mail that no document has at the time of its
    lookup, and the other routes insert nothing. *)
Theorem emails_unique_without_update (trace : list (Route * Env * Request)) st :
  Forall (fun step => step.1.1 ≠ PUT_update) trace ->
  NoDup (map email st) ->
  NoDup (map email (run trace st)).
Proof.
  revert st. induction trace as [|[[r env] req] rest IH]; intros st Hno Hnd; simpl.
  - done.
  - apply Forall_cons in Hno as [Hr Hno]. apply IH; [done|].
    by apply emails_unique_step.
Qed.

End Coverage.

(** ** The added properties at work *)

Lemma run_store_wf_witness : store_wf (@run Sample.libs Sample.session []).
Proof. apply (@run_store_wf Sample.libs Sample.session []). apply NoDup_nil_2. Defined.

Lemma run_written_witness :
  Forall (fun u =>
            @written_by_routes Sample.libs u
            /\ exists pw s, pw ≠ ""
                 /\ password u = @bcrypt_hash Sample.libs pw 10 s
                 /\ @bcrypt_compare Sample.libs pw (password u) = true
                 /\ password u ≠ pw)
         (@run Sample.libs Sample.session []).
Proof.
  apply (@run_written Sample.libs sample_hasher Sample.session []).
  apply Forall_nil_2.
Defined.

Lemma written_is_hash_of_sent_witness :
  exists pw,
    body Sample.create_bob !! "password" = Some (JStr pw)
    /\ pw ≠ ""
    /\ password Sample.bob = @bcrypt_hash Sample.libs pw 10 (salt Sample.quiet)
    /\ body Sample.create_bob !! "name" = Some (JStr (name Sample.bob))
    /\ body Sample.create_bob !! "email" = Some (JStr (email Sample.bob))
    /\ body Sample.create_bob !! "role" = Some (JStr "admin")
    /\ role Sample.bob = Some "admin".
Proof.
  apply (@written_is_hash_of_sent Sample.libs POST_create Sample.quiet
           Sample.ann_only Sample.create_bob Sample.bob).
  - apply list_elem_of_further, list_elem_of_here.
  - intros Hin. apply list_elem_of_singleton in Hin. discriminate.
Defined.

Lemma byId_after_create_witness :
  @app Sample.libs GET_byId Sample.quiet Sample.ann_and_bob Sample.get_bob
  = (Sent (mkResponse 200 (SendUser Sample.bob)), Sample.ann_and_bob).
Proof.
  refine (proj1 (@byId_after_create Sample.libs Sample.quiet Sample.quiet
                   Sample.ann_only Sample.create_bob Sample.get_bob Sample.bob
                   Sample.ann_and_bob _ _ _ _)); by vm_compute.
Defined.

Lemma all_after_create_witness :
  @app Sample.libs GET_all Sample.quiet Sample.ann_and_bob Sample.get_ann
  = (Sent (mkResponse 200 (SendUsers (Sample.ann_only ++ [Sample.bob]))),
     Sample.ann_only ++ [Sample.bob]).
Proof.
  apply (@all_after_create Sample.libs Sample.quiet Sample.quiet Sample.ann_only
           Sample.create_bob Sample.get_ann Sample.bob Sample.ann_and_bob);
    by vm_compute.
Defined.

Lemma login_after_create_witness :
  exists token,
    @app Sample.libs POST_login Sample.quiet Sample.ann_and_bob Sample.login_bob
    = (Sent (mkResponse 200 (SendToken token)), Sample.ann_and_bob)
    /\ userId (jwt_payload token) = _id Sample.bob
    /\ claim_role (jwt_payload token) = Some "admin"
    /\ iat (jwt_payload token) = now Sample.quiet
    /\ exp (jwt_payload token) = now Sample.quiet + 3600.
Proof.
  apply (@login_after_create Sample.libs sample_hasher Sample.quiet Sample.quiet
           Sample.ann_only Sample.create_bob Sample.login_bob Sample.bob
           Sample.ann_and_bob "s3cret"); by vm_compute.
Defined.

Lemma update_replaces_in_place_witness :
  @app Sample.libs PUT_update Sample.quiet Sample.ann_and_bob Sample.update_ann
  = (Sent (mkResponse 200 (SendUser Sample.ann_updated)),
     [Sample.ann_updated; Sample.bob]).
Proof.
  apply (@update_replaces_in_place Sample.libs Sample.quiet [] [Sample.bob]
           Sample.update_ann (mkPayload "Ann C" "ann@x.com" "pw3" (Some "admin"))
           "64b7f0c2a1d3e4f5a6b7c8d0" Sample.ann); try by vm_compute.
  intros v Hv. by apply elem_of_nil in Hv.
Defined.

Lemma byId_after_update_witness :
  @app Sample.libs GET_byId Sample.quiet [Sample.ann_updated] Sample.get_ann
  = (Sent (mkResponse 200 (SendUser Sample.ann_updated)), [Sample.ann_updated]).
Proof.
  refine (proj1 (@byId_after_update Sample.libs Sample.quiet Sample.quiet
                   Sample.ann_only Sample.update_ann Sample.get_ann
                   Sample.ann_updated [Sample.ann_updated] _ _ _)); by vm_compute.
Defined.

Lemma update_ignores_email_in_use_witness :
  exists u',
    fst (@app Sample.libs PUT_update Sample.quiet Sample.ann_and_bob
              Sample.bob_takes_ann_email)
    = Sent (mkResponse 200 (SendUser u'))
    /\ u' ∈ snd (@app Sample.libs PUT_update Sample.quiet Sample.ann_and_bob
                      Sample.bob_takes_ann_email)
    /\ Sample.ann ∈ snd (@app Sample.libs PUT_update Sample.quiet Sample.ann_and_bob
                              Sample.bob_takes_ann_email)
    /\ email u' = email Sample.ann
    /\ _id u' ≠ _id Sample.ann.
Proof.
  apply (@update_ignores_email_in_use Sample.libs Sample.quiet Sample.ann_and_bob
           Sample.bob_takes_ann_email (mkPayload "Bob" "a@x.com" "pw2" (Some "admin"))
           "64b7f0c2a1d3e4f5a6b7c8d9" Sample.bob Sample.ann); try by vm_compute.
  apply list_elem_of_here.
Defined.

Lemma invalid_id_is_500_witness :
  @app Sample.libs DELETE_delete Sample.quiet Sample.ann_only Sample.delete_nobody
  = (Sent (mkResponse 500 (Text "Error deleting user.")), Sample.ann_only).
Proof.
  refine (proj1 (proj2 (@invalid_id_is_500 Sample.libs Sample.quiet Sample.ann_only
                          Sample.delete_nobody _)) _); by vm_compute.
Defined.

Lemma absent_id_is_404_witness :
  @app Sample.libs DELETE_delete Sample.quiet Sample.ann_only Sample.delete_bob
  = (Sent (mkResponse 404 (Text "User not found.")), Sample.ann_only).
Proof.
  refine (proj1 (proj2 (@absent_id_is_404 Sample.libs Sample.quiet Sample.ann_only
                          Sample.delete_bob "64b7f0c2a1d3e4f5a6b7c8d9" _ _)) _ _);
    try by vm_compute.
  simpl. intros Hin. apply list_elem_of_singleton in Hin. discriminate.
Defined.

Lemma delete_removes_one_witness :
  @app Sample.libs DELETE_delete Sample.quiet Sample.ann_and_bob Sample.delete_bob
  = (Sent (mkResponse 200 (Text "User deleted.")), Sample.ann_only ++ []).
Proof.
  apply (@delete_removes_one Sample.libs Sample.quiet Sample.ann_only []
           Sample.delete_bob "64b7f0c2a1d3e4f5a6b7c8d9" Sample.bob);
    try by vm_compute.
  intros v Hv. apply list_elem_of_singleton in Hv as ->. simpl. discriminate.
Defined.

Lemma gone_after_delete_witness :
  @app Sample.libs DELETE_delete Sample.quiet Sample.ann_only Sample.delete_bob
  = (Sent (mkResponse 404 (Text "User not found.")), Sample.ann_only).
Proof.
  refine (proj1 (@gone_after_delete Sample.libs Sample.quiet Sample.quiet
                   Sample.ann_and_bob Sample.delete_bob Sample.delete_bob
                   (mkResponse 200 (Text "User deleted.")) Sample.ann_only
                   _ _ _ _ _) _); try by vm_compute.
  unfold store_wf. simpl. apply NoDup_cons. split.
  - intros Hin. apply list_elem_of_singleton in Hin. discriminate.
  - apply NoDup_singleton.
Defined.

Lemma token_only_if_verified_witness :
  exists r,
    fst (@app Sample.libs POST_login Sample.quiet Sample.ann_only Sample.login_ann)
    = Sent r
    /\ exists u pw key,
         @User.findOne Sample.libs Sample.quiet
           (body Sample.login_ann !! "email") Sample.ann_only = Ok (Some u)
         /\ body Sample.login_ann !! "password" = Some (JStr pw)
         /\ @bcrypt_compare Sample.libs pw (password u) = true
         /\ JWT_SECRET Sample.quiet = Some key
         /\ key ≠ ""
         /\ sent r = SendToken
              (mkJwt (mkClaims (_id u) (role u) (now Sample.quiet)
                        (now Sample.quiet + 3600))
                 (@hs256 Sample.libs key
                    (mkClaims (_id u) (role u) (now Sample.quiet)
                       (now Sample.quiet + 3600)))).
Proof.
  eexists. split; [by vm_compute|].
  apply (@token_only_if_verified Sample.libs Sample.quiet Sample.ann_only
           Sample.login_ann); by vm_compute.
Defined.

Lemma login_throws_500_witness :
  @app Sample.libs POST_login Sample.quiet Sample.ann_only Sample.login_ann_number
  = (Sent (mkResponse 500 (Text "Error logging in.")), Sample.ann_only)
  /\ @app Sample.libs POST_login Sample.no_secret Sample.ann_only Sample.login_ann
     = (Sent (mkResponse 500 (Text "Error logging in.")), Sample.ann_only).
Proof.
  split.
  - refine (proj1 (@login_throws_500 Sample.libs Sample.quiet Sample.ann_only
                     Sample.login_ann_number Sample.ann _) _); [by vm_compute|].
    intros pw. vm_compute. discriminate.
  - refine (proj2 (@login_throws_500 Sample.libs Sample.no_secret Sample.ann_only
                     Sample.login_ann Sample.ann _) "pw1" _ _ _);
      [by vm_compute..|by left].
Defined.

Lemma lookup_failure_witness :
  @app Sample.libs POST_create (Sample.failing CallFindOne) Sample.ann_only
       Sample.create_bob
  = (Rejected, Sample.ann_only).
Proof.
  refine (proj2 (@lookup_failure Sample.libs (Sample.failing CallFindOne)
                   Sample.ann_only Sample.create_bob _) _ _);
    [by vm_compute|by vm_compute|].
  eexists. by vm_compute.
Defined.

Lemma validation_precedes_store_witness :
  @app Sample.libs PUT_update (Sample.failing CallFindByIdAndUpdate)
       Sample.ann_only Sample.rename_ann
  = (Sent (mkResponse 400 (Details (AnyRequired "email"))), Sample.ann_only).
Proof.
  refine (proj2 (@validation_precedes_store Sample.libs
                   (Sample.failing CallFindByIdAndUpdate) Sample.ann_only
                   Sample.rename_ann (AnyRequired "email") _ _)); by vm_compute.
Defined.

Lemma login_after_update_witness :
  exists token,
    @app Sample.libs POST_login Sample.quiet [Sample.ann_updated]
         Sample.login_ann_updated
    = (Sent (mkResponse 200 (SendToken token)), [Sample.ann_updated])
    /\ userId (jwt_payload token) = _id Sample.ann_updated
    /\ claim_role (jwt_payload token) = Some "admin"
    /\ exp (jwt_payload token) = now Sample.quiet + 3600.
Proof.
  apply (@login_after_update Sample.libs sample_hasher Sample.quiet Sample.quiet
           Sample.ann_only Sample.update_ann Sample.login_ann_updated
           Sample.ann_updated [Sample.ann_updated] "s3cret"); by vm_compute.
Defined.

Lemma emails_unique_without_update_witness :
  NoDup (map email (@run Sample.libs Sample.session_without_update [])).
Proof.
  apply (@emails_unique_without_update Sample.libs Sample.session_without_update []).
  - repeat (apply Forall_cons; split; [simpl; discriminate|]). apply Forall_nil_2.
  - apply NoDup_nil_2.
Defined.
